(** * SEO checker: URL normaliser, metadata extractor, feedback generator

    A shallow embedding of [src/main.py] and the properties of its three
    components.

    Strings.  A Python [str] is modelled by [string]; each [ascii] stands
    for one code point below 256, so that [String.length] is Python's
    [len].  The primitives of [str] the program calls ([strip], [lower],
    [startswith], [in]) are written out in module [Py] for that range.
    The message literals are copied from the source file as they are
    written there; the en dash of three of them, a code point above 255,
    appears as the bytes of the file.  No function of the program reads a
    message.

    Dictionaries are [gmap string _]; [d.get(k, dflt)] is [get]. *)

From Stdlib Require Import Ascii String.
From stdpp Require Import base strings list gmap pretty.

Local Open Scope string_scope.
Local Open Scope list_scope.
Local Open Scope nat_scope.

(** ** Python's [str] primitives *)

Module Py.

(** [c.isspace()] on code points below 256: TAB..CR, FS..US, space,
    NEL (0x85) and NBSP (0xA0). *)
Definition isspace (c : ascii) : bool :=
  let n := nat_of_ascii c in
  ((9 <=? n) && (n <=? 13)) || ((28 <=? n) && (n <=? 32))
  || (n =? 133) || (n =? 160).

(** Truth value of a string: [bool(s)], false exactly on [""]. *)
Definition truthy (s : string) : bool :=
  match s with
  | EmptyString => false
  | String _ _ => true
  end.

Fixpoint lstrip (s : string) : string :=
  match s with
  | EmptyString => EmptyString
  | String c s' => if isspace c then lstrip s' else s
  end.

Fixpoint rstrip (s : string) : string :=
  match s with
  | EmptyString => EmptyString
  | String c s' =>
      let r := rstrip s' in
      if isspace c && negb (truthy r) then EmptyString else String c r
  end.

(** [s.strip()]: whitespace removed at both ends. *)
Definition strip (s : string) : string := rstrip (lstrip s).

(** [s.startswith(p)]. *)
Definition startswith (s p : string) : bool := String.prefix p s.

(** [sub in s]: [sub] occurs in [s] as a contiguous substring. *)
Fixpoint contains (sub s : string) : bool :=
  String.prefix sub s ||
  match s with
  | EmptyString => false
  | String _ s' => contains sub s'
  end.

(** [c.lower()] on code points below 256: A..Z, and the Latin-1 capitals
    0xC0..0xDE except the multiplication sign 0xD7, move up by 32. *)
Definition lower_char (c : ascii) : ascii :=
  let n := nat_of_ascii c in
  if ((65 <=? n) && (n <=? 90))
     || ((192 <=? n) && (n <=? 222) && negb (n =? 215))
  then ascii_of_nat (n + 32) else c.

Fixpoint lower (s : string) : string :=
  match s with
  | EmptyString => EmptyString
  | String c s' => String (lower_char c) (lower s')
  end.

(** First and last character, when there is one. *)
Definition head_char (s : string) : option ascii :=
  match s with
  | EmptyString => None
  | String c _ => Some c
  end.

Fixpoint last_char (s : string) : option ascii :=
  match s with
  | EmptyString => None
  | String c EmptyString => Some c
  | String _ s' => last_char s'
  end.

End Py.

(** ** URL normaliser *)

(** [normalize_url], lines 9-13. *)
Definition normalize_url (url : string) : string :=
  let url := Py.strip url in
  if negb (Py.startswith url "http://") && negb (Py.startswith url "https://")
  then "https://" +:+ url
  else url.

(** ** Parsed documents

    [BeautifulSoup(html, "html.parser")] is an external collaborator.  Its
    result is modelled by the tags of the parse tree in document order,
    which is the order [soup.find] searches them in.  A tag carries its
    name, its single-valued attributes ([name], [property], [content],
    [href], ...: strings), the tokens of its multi-valued [rel] attribute
    (a list in the parser's output, empty when the attribute is absent) and
    the value of its [.string] property. *)

Record Tag := {
  tag_name : string;
  tag_attrs : gmap string string;
  tag_rel : list string;
  tag_string : option string;
}.

(** Truth value of an optional string: [None] and [""] are false. *)
Definition truthy_opt (o : option string) : bool :=
  match o with
  | Some s => Py.truthy s
  | None => false
  end.

(** [soup.find(name)]: the first tag with that name. *)
Definition find_tag (soup : list Tag) (name : string) : option Tag :=
  List.find (λ t, bool_decide (tag_name t = name)) soup.

(** [soup.find(name, attrs={attr: value})] for a non-empty [value], as in
    every call of the program: the first tag with that name whose attribute
    [attr] is present and equal to [value]. *)
Definition find_attr (soup : list Tag) (name attr value : string) : option Tag :=
  List.find (λ t, bool_decide (tag_name t = name)
                  && bool_decide (tag_attrs t !! attr = Some value)) soup.

(** A multi-valued attribute matches a string when one of its tokens is
    that string, or when its tokens joined by single spaces are. *)
Definition rel_matches (tokens : list string) (rel : string) : bool :=
  existsb (String.eqb rel) tokens || String.eqb (String.concat " " tokens) rel.

(** [soup.find(name, rel=rel)]. *)
Definition find_rel (soup : list Tag) (name rel : string) : option Tag :=
  List.find (λ t, bool_decide (tag_name t = name) && rel_matches (tag_rel t) rel) soup.

(** ** Metadata extractor *)

(** The expression shared by the three lookups,
    [tag.get(attr, "").strip() if tag and tag.get(attr) else ""]. *)
Definition stripped_attr (tag : option Tag) (attr : string) : string :=
  match tag with
  | Some t =>
      if truthy_opt (tag_attrs t !! attr)
      then Py.strip (default "" (tag_attrs t !! attr))
      else ""
  | None => ""
  end.

(** [get_meta_by_name], lines 19-21. *)
Definition get_meta_by_name (soup : list Tag) (name : string) : string :=
  let tag := find_attr soup "meta" "name" name in
  stripped_attr tag "content".

(** [get_meta_by_property], lines 23-27. *)
Definition get_meta_by_property (soup : list Tag) (prop : string) : string :=
  let tag := find_attr soup "meta" "property" prop in
  let tag := match tag with
             | None => find_attr soup "meta" "name" prop
             | Some _ => tag
             end in
  stripped_attr tag "content".

(** [get_link_rel], lines 29-31. *)
Definition get_link_rel (soup : list Tag) (rel : string) : string :=
  let tag := find_rel soup "link" rel in
  stripped_attr tag "href".

(** Line 33: [soup.title.string.strip() if soup.title and soup.title.string
    else ""]. *)
Definition soup_title (soup : list Tag) : string :=
  match find_tag soup "title" with
  | Some t =>
      if truthy_opt (tag_string t)
      then Py.strip (default "" (tag_string t))
      else ""
  | None => ""
  end.

(** The dictionary literal of lines 35-51; later keys are inserted later. *)
Definition meta_literal (soup : list Tag) : gmap string string :=
  <["twitter:image" := get_meta_by_property soup "twitter:image"]>
  (<["twitter:description" := get_meta_by_property soup "twitter:description"]>
  (<["twitter:title" := get_meta_by_property soup "twitter:title"]>
  (<["twitter:card" := get_meta_by_property soup "twitter:card"]>
  (<["og:type" := get_meta_by_property soup "og:type"]>
  (<["og:url" := get_meta_by_property soup "og:url"]>
  (<["og:image" := get_meta_by_property soup "og:image"]>
  (<["og:description" := get_meta_by_property soup "og:description"]>
  (<["og:title" := get_meta_by_property soup "og:title"]>
  (<["canonical" := get_link_rel soup "canonical"]>
  (<["robots" := get_meta_by_name soup "robots"]>
  (<["description" := get_meta_by_name soup "description"]>
  (<["title" := soup_title soup]> ∅)))))))))))).

(** Lines 35-57 of [extract_meta_tags], after the parse. *)
Definition extract_from_soup (soup : list Tag) (url : string) : gmap string string :=
  let meta := meta_literal soup in
  if negb (Py.truthy (meta !!! "og:url"))
  then <["og:url" := url]> meta
  else meta.

(** ** Feedback generator *)

Record FeedbackItem := { level : string; message : string }.

(** [meta.get(key, dflt)]. *)
Definition get (meta : gmap string string) (key dflt : string) : string :=
  default dflt (meta !! key).

(** The closure [add] of lines 63-64 appends to the list [feedback]; the
    list is passed explicitly. *)
Definition add (level message : string) (feedback : list FeedbackItem)
  : list FeedbackItem :=
  feedback ++ [{| level := level; message := message |}].

(** Title checks, lines 67-76. *)
Definition check_title (meta : gmap string string) (feedback : list FeedbackItem)
  : list FeedbackItem :=
  let title := get meta "title" "" in
  if negb (Py.truthy title) then
    add "error" "Missing <title> tag. Every page should have a unique, descriptive title." feedback
  else if String.length title <? 30 then
    add "warning" ("Title is quite short (" +:+ pretty (String.length title)
                   +:+ " chars). Aim for 30–60 characters.") feedback
  else if 65 <? String.length title then
    add "warning" ("Title may be too long (" +:+ pretty (String.length title)
                   +:+ " chars). It might get truncated in search results.") feedback
  else
    add "ok" "Title length looks good." feedback.

(** Description checks, lines 79-88. *)
Definition check_description (meta : gmap string string) (feedback : list FeedbackItem)
  : list FeedbackItem :=
  let description := get meta "description" "" in
  if negb (Py.truthy description) then
    add "error" "Missing meta description. Add a concise, compelling description (50–160 characters)." feedback
  else if String.length description <? 50 then
    add "warning" ("Description is short (" +:+ pretty (String.length description)
                   +:+ " chars). Aim for 50–160 characters.") feedback
  else if 170 <? String.length description then
    add "warning" ("Description is long (" +:+ pretty (String.length description)
                   +:+ " chars). It might be truncated in search.") feedback
  else
    add "ok" "Meta description length looks good." feedback.

Definition noindex_message : string :=
  "robots tag contains 'noindex'. This page will not appear in search results.".
Definition nofollow_message : string :=
  "robots tag contains 'nofollow'. Search engines won't follow links on this page.".
Definition no_robots_message : string :=
  "No robots meta tag found. Default is index, follow (usually fine).".

(** Robots, lines 91-98. *)
Definition check_robots (meta : gmap string string) (feedback : list FeedbackItem)
  : list FeedbackItem :=
  let robots := Py.lower (get meta "robots" "") in
  if Py.truthy robots then
    let feedback :=
      if Py.contains "noindex" robots
      then add "warning" noindex_message feedback else feedback in
    let feedback :=
      if Py.contains "nofollow" robots
      then add "warning" nofollow_message feedback else feedback in
    feedback
  else
    add "ok" no_robots_message feedback.

(** Canonical, lines 101-104. *)
Definition check_canonical (meta : gmap string string) (feedback : list FeedbackItem)
  : list FeedbackItem :=
  if negb (truthy_opt (meta !! "canonical")) then
    add "warning" "Missing canonical link tag. Consider adding one to avoid duplicate content issues." feedback
  else
    add "ok" "Canonical URL is set." feedback.

(** Open Graph title and description, lines 107-110. *)
Definition check_og_text (meta : gmap string string) (feedback : list FeedbackItem)
  : list FeedbackItem :=
  if negb (truthy_opt (meta !! "og:title"))
     || negb (truthy_opt (meta !! "og:description")) then
    add "warning" "Open Graph title/description missing or incomplete. Social shares may look generic." feedback
  else
    add "ok" "Open Graph title and description are present." feedback.

(** Open Graph image, lines 112-115. *)
Definition check_og_image (meta : gmap string string) (feedback : list FeedbackItem)
  : list FeedbackItem :=
  if negb (truthy_opt (meta !! "og:image")) then
    add "warning" "Open Graph image missing. Social shares may not show a nice preview image." feedback
  else
    add "ok" "Open Graph image is set." feedback.

(** Twitter, lines 118-121. *)
Definition check_twitter (meta : gmap string string) (feedback : list FeedbackItem)
  : list FeedbackItem :=
  if negb (truthy_opt (meta !! "twitter:card")) then
    add "warning" "twitter:card missing. Set it to 'summary' or 'summary_large_image' for better Twitter previews." feedback
  else
    add "ok" ("Twitter card type is '" +:+ default "" (meta !! "twitter:card") +:+ "'.") feedback.

(** [generate_feedback], lines 60-123: the seven blocks in order, on a list
    that starts empty. *)
Definition generate_feedback (meta : gmap string string) : list FeedbackItem :=
  let feedback := [] in
  let feedback := check_title meta feedback in
  let feedback := check_description meta feedback in
  let feedback := check_robots meta feedback in
  let feedback := check_canonical meta feedback in
  let feedback := check_og_text meta feedback in
  let feedback := check_og_image meta feedback in
  let feedback := check_twitter meta feedback in
  feedback.

(** ** The [/analyze] endpoint

    The handler reads the request body, may call the outbound fetch once,
    and answers.  The parser, the HTTP client and [urlparse] are external;
    they are parameters of the section.  A computation carries the list of
    URLs handed to the HTTP client so far and either raises or returns. *)

(** A value of the JSON body under a key: a string, or anything else
    (null, number, boolean, array, object). *)
Inductive JsonValue :=
  | JStr (s : string)
  | JOther.

(** [request.get_json()]: a JSON object, or any other JSON value. *)
Inductive JsonBody :=
  | JObject (fields : gmap string JsonValue)
  | JNotObject.

Inductive FetchResult :=
  | FetchOk (text : string)
  | FetchFail (cause : string).

Inductive Exn :=
  | AttributeError
  | RequestException (cause : string).

Record ParseResult := { scheme : string; netloc : string; path : string }.

(** What [jsonify] is given. *)
Inductive Payload :=
  | ErrorPayload (error : string)
  | ResultPayload (url display_url : string) (meta : gmap string string)
      (feedback : list FeedbackItem).

Record Response := { payload : Payload; status : nat }.

(** Computations that log outbound fetches and may raise. *)
Definition M (A : Type) : Type := list string → list string * (Exn + A).

Definition ret {A} (a : A) : M A := λ log, (log, inr a).

Definition raise {A} (e : Exn) : M A := λ log, (log, inl e).

Definition bind {A B} (m : M A) (k : A → M B) : M B :=
  λ log, match m log with
         | (log', inl e) => (log', inl e)
         | (log', inr a) => k a log'
         end.

(** [try: m except RequestException as e: handler(e)]. *)
Definition try_except {A} (m : M A) (handler : string → M A) : M A :=
  λ log, match m log with
         | (log', inl (RequestException cause)) => handler cause log'
         | r => r
         end.

Notation "'let*' x := m 'in' k" := (bind m (λ x, k))
  (at level 10, x name, m at level 100, k at level 200, only parsing).

Section Service.

(** [BeautifulSoup(html, "html.parser")]. *)
Variable BeautifulSoup : string → list Tag.
(** [requests.get(url, timeout=10, headers=...)] followed by
    [raise_for_status()]: the page text, or the cause of the failure. *)
Variable requests_get : string → FetchResult.
(** [urllib.parse.urlparse]. *)
Variable urlparse : string → ParseResult.

(** [extract_meta_tags], lines 16-57. *)
Definition extract_meta_tags (html url : string) : gmap string string :=
  let soup := BeautifulSoup html in
  extract_from_soup soup url.

(** One call of the HTTP client: logged, then the text or the exception. *)
Definition http_get (url : string) : M string :=
  λ log, (log ++ [url],
          match requests_get url with
          | FetchOk text => inr text
          | FetchFail cause => inl (RequestException cause)
          end).

(** Line 132: [data.get("url", "").strip()]; only a dictionary has [get]
    and only a string has [strip]. *)
Definition url_field (data : JsonBody) : M string :=
  match data with
  | JObject fields =>
      match default (JStr "") (fields !! "url") with
      | JStr s => ret (Py.strip s)
      | JOther => raise AttributeError
      end
  | JNotObject => raise AttributeError
  end.

(** [analyze], lines 130-156, given the body [request.get_json()]
    returned. *)
Definition analyze (data : JsonBody) : M Response :=
  let* url := url_field data in
  if negb (Py.truthy url) then
    ret {| payload := ErrorPayload "No URL provided."; status := 400 |}
  else
    let url := normalize_url url in
    let* fetched :=
      try_except (let* text := http_get url in ret (inr text))
                 (λ e, ret (inl e)) in
    match fetched with
    | inl e =>
        ret {| payload := ErrorPayload ("Error fetching URL: " +:+ e);
               status := 400 |}
    | inr text =>
        let meta := extract_meta_tags text url in
        let feedback := generate_feedback meta in
        let parsed := urlparse url in
        let display_url :=
          scheme parsed +:+ "://" +:+ netloc parsed
          +:+ (if Py.truthy (path parsed) then path parsed else "") in
        ret {| payload := ResultPayload url display_url meta feedback;
               status := 200 |}
    end.

End Service.

(** ** Words of the specification about strings *)

(** [s] begins with [p]. *)
Definition begins_with (p s : string) : Prop := ∃ r, s = p +:+ r.

(** Every character of [s] is whitespace. *)
Fixpoint all_space (s : string) : Prop :=
  match s with
  | EmptyString => True
  | String c s' => Py.isspace c = true ∧ all_space s'
  end.

(** [t] is [u] with its leading and trailing whitespace removed: [u] is
    [t] between two runs of whitespace, and [t] neither starts nor ends
    with whitespace. *)
Definition is_trim_of (t u : string) : Prop :=
  (∃ l r, u = l +:+ t +:+ r ∧ all_space l ∧ all_space r)
  ∧ (∀ c, Py.head_char t = Some c → Py.isspace c = false)
  ∧ (∀ c, Py.last_char t = Some c → Py.isspace c = false).

(** [sub] occurs in [s] when letter case is ignored: some contiguous part
    of [s] has the same lower-case form as [sub]. *)
Definition contains_ci (sub s : string) : Prop :=
  ∃ pre mid post, s = pre +:+ mid +:+ post ∧ Py.lower mid = Py.lower sub.

(** ** Words of the specification about documents and records *)

(** [t] is a meta element whose attribute [attr] equals [value]. *)
Definition is_meta_with (attr value : string) (t : Tag) : Prop :=
  tag_name t = "meta" ∧ tag_attrs t !! attr = Some value.

(** No tag of the document is such an element. *)
Definition no_meta_with (attr value : string) (soup : list Tag) : Prop :=
  Forall (λ x, ¬ is_meta_with attr value x) soup.

(** [t] is the first such element of the document. *)
Definition first_meta_with (attr value : string) (soup : list Tag) (t : Tag) : Prop :=
  ∃ pre post, soup = pre ++ t :: post
              ∧ is_meta_with attr value t ∧ no_meta_with attr value pre.

(** The content attribute of a tag, [""] when it has none. *)
Definition content_of (t : Tag) : string := default "" (tag_attrs t !! "content").

(** The Open Graph and Twitter keys, looked up by [property] then [name]. *)
Definition property_keys : list string :=
  ["og:title"; "og:description"; "og:image"; "og:url"; "og:type";
   "twitter:card"; "twitter:title"; "twitter:description"; "twitter:image"].

(** The thirteen keys of a metadata record. *)
Definition meta_keys : list string :=
  ["title"; "description"; "robots"; "canonical"] ++ property_keys.

(** A meta element with one naming attribute and a content. *)
Definition meta_tag (attr value content : string) : Tag :=
  {| tag_name := "meta";
     tag_attrs := <[attr := value]> (<["content" := content]> ∅);
     tag_rel := [];
     tag_string := None |}.

(** The feedback items the robots block can emit. *)
Definition noindex_warning : FeedbackItem :=
  {| level := "warning"; message := noindex_message |}.
Definition nofollow_warning : FeedbackItem :=
  {| level := "warning"; message := nofollow_message |}.
Definition no_robots_ok : FeedbackItem :=
  {| level := "ok"; message := no_robots_message |}.

(** A block of the generator only appends: what it adds does not depend on
    the list it is given. *)
Definition appends
    (check : gmap string string → list FeedbackItem → list FeedbackItem) : Prop :=
  ∀ meta feedback, check meta feedback = feedback ++ check meta [].

(** ** Further words, for the properties beyond the claims *)

(** [s] has no whitespace at either end. *)
Definition is_trimmed (s : string) : Prop :=
  (∀ c, Py.head_char s = Some c → Py.isspace c = false)
  ∧ (∀ c, Py.last_char s = Some c → Py.isspace c = false).

(** [s] begins with one of the two schemes the normaliser knows. *)
Definition has_scheme (s : string) : Prop :=
  begins_with "http://" s ∨ begins_with "https://" s.

(** [t] is the first tag of the document that satisfies [P]. *)
Definition first_such (P : Tag → Prop) (soup : list Tag) (t : Tag) : Prop :=
  ∃ pre post, soup = pre ++ t :: post ∧ P t ∧ Forall (λ x, ¬ P x) pre.

(** [t] is a link element with [rel] among the tokens of its [rel]
    attribute. *)
Definition is_link_with_rel (rel : string) (t : Tag) : Prop :=
  tag_name t = "link" ∧ rel ∈ tag_rel t.

(** [t] is a title element. *)
Definition is_title (t : Tag) : Prop := tag_name t = "title".

(** The href attribute of a tag, [""] when it has none. *)
Definition href_of (t : Tag) : string := default "" (tag_attrs t !! "href").

(** The [.string] of a tag, [""] when it has none. *)
Definition string_of (t : Tag) : string := default "" (tag_string t).

(** The keys [generate_feedback] reads. *)
Definition feedback_keys : list string :=
  ["title"; "description"; "robots"; "canonical";
   "og:title"; "og:description"; "og:image"; "twitter:card"].

(** The three severity levels. *)
Definition valid_level (l : string) : Prop :=
  l = "error" ∨ l = "warning" ∨ l = "ok".

(** ** Lemmas on the string primitives *)

Section StringFacts.

Lemma app_String c (s t : string) : String c s +:+ t = String c (s +:+ t).
Proof. reflexivity. Qed.

Lemma app_empty_l (s : string) : "" +:+ s = s.
Proof. reflexivity. Qed.

Lemma app_empty_r (s : string) : s +:+ "" = s.
Proof. induction s as [|c s IH]; [done|]. by rewrite app_String, IH. Qed.

Lemma app_assoc_s (a b c : string) : (a +:+ b) +:+ c = a +:+ b +:+ c.
Proof.
  induction a as [|x a IH]; [done|]. by rewrite !app_String, IH.
Qed.

Lemma length_app_s (a b : string) :
  String.length (a +:+ b) = String.length a + String.length b.
Proof.
  induction a as [|x a IH]; [done|]. rewrite app_String. simpl. by rewrite IH.
Qed.

Lemma truthy_false s : Py.truthy s = false ↔ s = "".
Proof. destruct s; simpl; split; congruence. Qed.

Lemma truthy_true s : Py.truthy s = true ↔ s ≠ "".
Proof. destruct s; simpl; split; congruence. Qed.

Lemma prefix_begins p s : String.prefix p s = true ↔ begins_with p s.
Proof.
  revert s. induction p as [|c p IH]; intros s.
  - split; [intros _; by exists s | by destruct s].
  - destruct s as [|d s]; simpl.
    + split; [done | by intros [r Hr]].
    + destruct (Ascii.ascii_dec c d) as [->|Hne].
      * rewrite IH. split; intros [r Hr]; exists r.
        -- by rewrite app_String, <- Hr.
        -- rewrite app_String in Hr. congruence.
      * split; [done|]. intros [r Hr]. rewrite app_String in Hr. congruence.
Qed.

Lemma startswith_begins s p : Py.startswith s p = true ↔ begins_with p s.
Proof. apply prefix_begins. Qed.

Lemma startswith_not_begins s p :
  Py.startswith s p = false ↔ ¬ begins_with p s.
Proof.
  rewrite <- startswith_begins. destruct (Py.startswith s p); split; congruence.
Qed.

(** *** [lstrip] *)

Lemma lstrip_split s : ∃ l, s = l +:+ Py.lstrip s ∧ all_space l.
Proof.
  induction s as [|c s (l & Hl & Hsp)]; [by exists ""|].
  simpl. destruct (Py.isspace c) eqn:Hc.
  - exists (String c l). rewrite app_String, <- Hl. by repeat split.
  - by exists "".
Qed.

Lemma lstrip_head s c :
  Py.head_char (Py.lstrip s) = Some c → Py.isspace c = false.
Proof.
  induction s as [|d s IH]; simpl; [done|].
  destruct (Py.isspace d) eqn:Hd; [done|]. simpl. congruence.
Qed.

Lemma lstrip_all_space l s : all_space l → Py.lstrip (l +:+ s) = Py.lstrip s.
Proof.
  induction l as [|c l IH]; [done|]. intros [Hc Hl].
  rewrite app_String. simpl. rewrite Hc. auto.
Qed.

Lemma lstrip_id s :
  (∀ c, Py.head_char s = Some c → Py.isspace c = false) → Py.lstrip s = s.
Proof.
  destruct s as [|c s]; [done|]. intros H. simpl. by rewrite (H c).
Qed.

(** *** [rstrip] *)

Lemma rstrip_split s : ∃ r, s = Py.rstrip s +:+ r ∧ all_space r.
Proof.
  induction s as [|c s (r & Hr & Hsp)]; [by exists ""|].
  simpl. destruct (Py.isspace c) eqn:Hc; simpl.
  - destruct (Py.truthy (Py.rstrip s)) eqn:Ht; simpl.
    + exists r. by rewrite app_String, <- Hr.
    + apply truthy_false in Ht. rewrite Ht in Hr.
      exists (String c r). rewrite app_empty_l in *. by subst.
  - exists r. by rewrite app_String, <- Hr.
Qed.

Lemma rstrip_last s c :
  Py.last_char (Py.rstrip s) = Some c → Py.isspace c = false.
Proof.
  induction s as [|d s IH]; simpl; [done|].
  destruct (Py.rstrip s) as [|e r] eqn:Hr; simpl.
  - destruct (Py.isspace d) eqn:Hd; simpl; [done|]. congruence.
  - rewrite andb_false_r. simpl. exact IH.
Qed.

Lemma rstrip_head s c :
  Py.head_char (Py.rstrip s) = Some c → Py.head_char s = Some c.
Proof.
  destruct s as [|d s]; simpl; [done|].
  by destruct (Py.isspace d && negb (Py.truthy (Py.rstrip s))).
Qed.

Lemma rstrip_all_space r : all_space r → Py.rstrip r = "".
Proof.
  induction r as [|c r IH]; [done|]. intros [Hc Hr].
  simpl. by rewrite (IH Hr), Hc.
Qed.

Lemma rstrip_app_space s r :
  all_space r →
  (∀ c, Py.last_char s = Some c → Py.isspace c = false) →
  Py.rstrip (s +:+ r) = s.
Proof.
  intros Hr. induction s as [|c s IH]; intros Hlast.
  - by apply rstrip_all_space.
  - rewrite app_String. simpl. destruct s as [|d s].
    + rewrite app_empty_l, (rstrip_all_space r Hr). simpl.
      by rewrite (Hlast c).
    + rewrite IH by (intros e He; by apply Hlast).
      simpl. by rewrite andb_false_r.
Qed.

(** *** [strip] *)

Lemma strip_is_trim u : is_trim_of (Py.strip u) u.
Proof.
  unfold Py.strip. destruct (lstrip_split u) as (l & Hl & Hls).
  destruct (rstrip_split (Py.lstrip u)) as (r & Hr & Hrs).
  split; [|split].
  - exists l, r. by rewrite <- Hr.
  - intros c Hc. apply rstrip_head in Hc. by apply lstrip_head in Hc.
  - apply rstrip_last.
Qed.

Lemma trim_is_strip t u : is_trim_of t u → t = Py.strip u.
Proof.
  intros [(l & r & -> & Hl & Hr) [Hhd Hlt]]. unfold Py.strip.
  rewrite lstrip_all_space by done. destruct t as [|c t].
  - rewrite app_empty_l. symmetry. apply rstrip_all_space.
    clear -Hr. induction r as [|c r IH]; [done|].
    destruct Hr as [Hc Hr]. simpl. rewrite Hc. auto.
  - rewrite lstrip_id.
    + symmetry. by apply rstrip_app_space.
    + rewrite app_String. simpl. intros d [= <-]. by apply Hhd.
Qed.

Lemma strip_fixed t :
  (∀ c, Py.head_char t = Some c → Py.isspace c = false) →
  (∀ c, Py.last_char t = Some c → Py.isspace c = false) →
  Py.strip t = t.
Proof.
  intros Hhd Hlt. symmetry. apply trim_is_strip. split; [|done].
  exists "", "". by rewrite app_empty_l, app_empty_r.
Qed.

Lemma last_char_app_String s c t :
  Py.last_char (s +:+ String c t) = Py.last_char (String c t).
Proof.
  induction s as [|d s IH]; [done|]. rewrite app_String.
  destruct s as [|e s]; [done|]. rewrite <- IH. by rewrite app_String.
Qed.

End StringFacts.

(** ** Lemmas on [lower] and [in] *)

Section CaseFacts.

Lemma app_eq_empty (a b : string) : a +:+ b = "" → a = "" ∧ b = "".
Proof. destruct a; [done|]. rewrite app_String. discriminate. Qed.

Lemma contains_unfold sub s :
  Py.contains sub s =
    String.prefix sub s
    || match s with
       | EmptyString => false
       | String _ s' => Py.contains sub s'
       end.
Proof. by destruct s. Qed.

Lemma contains_occurs sub s :
  Py.contains sub s = true ↔ ∃ pre post, s = pre +:+ sub +:+ post.
Proof.
  induction s as [|c s IH];
    rewrite contains_unfold, orb_true_iff, prefix_begins.
  - split.
    + intros [[r Hr]|?]; [|done]. by exists "", r.
    + intros (pre & post & H). left. symmetry in H.
      apply app_eq_empty in H as [-> H]. by exists post.
  - rewrite IH. split.
    + intros [[r Hr]|(pre & post & ->)].
      * by exists "", r.
      * by exists (String c pre), post.
    + intros (pre & post & H). destruct pre as [|d pre].
      * left. by exists post.
      * right. rewrite app_String in H. injection H as _ ->. by exists pre, post.
Qed.

Lemma lower_app (a b : string) :
  Py.lower (a +:+ b) = Py.lower a +:+ Py.lower b.
Proof.
  induction a as [|c a IH]; [done|]. rewrite app_String. simpl.
  by rewrite IH.
Qed.

Lemma lower_split s x y :
  Py.lower s = x +:+ y →
  ∃ a b, s = a +:+ b ∧ Py.lower a = x ∧ Py.lower b = y.
Proof.
  revert s. induction x as [|c x IH]; intros s H.
  - by exists "", s.
  - destruct s as [|d s]; [done|]. rewrite app_String in H. simpl in H.
    injection H as Hc Hs. destruct (IH s Hs) as (a & b & -> & Ha & Hb).
    exists (String d a), b. simpl. by rewrite Hc, Ha.
Qed.

Lemma lower_truthy s : Py.truthy (Py.lower s) = Py.truthy s.
Proof. by destruct s. Qed.

(** The program lowers the whole value and then looks for the directive;
    that finds the directive exactly when it occurs in the value with
    letter case ignored. *)
Lemma contains_lower_ci sub s :
  Py.lower sub = sub →
  Py.contains sub (Py.lower s) = true ↔ contains_ci sub s.
Proof.
  intros Hsub. rewrite contains_occurs. split.
  - intros (pre & post & H).
    apply lower_split in H as (a & r & -> & _ & H).
    apply lower_split in H as (m & p & -> & Hm & _).
    exists a, m, p. by rewrite Hsub.
  - intros (pre & mid & post & -> & Hm).
    exists (Py.lower pre), (Py.lower post).
    by rewrite !lower_app, Hm, Hsub.
Qed.

Lemma contains_lower_not_ci sub s :
  Py.lower sub = sub →
  Py.contains sub (Py.lower s) = false ↔ ¬ contains_ci sub s.
Proof.
  intros Hsub. rewrite <- (contains_lower_ci sub s Hsub).
  destruct (Py.contains _ _); split; congruence.
Qed.

End CaseFacts.

(** ** Lemmas on the feedback blocks *)

Section Blocks.

Implicit Types (meta : gmap string string) (feedback : list FeedbackItem).

Lemma check_title_appends : appends check_title.
Proof.
  intros meta fb. unfold check_title, add.
  repeat (case_match; try done).
Qed.

Lemma check_description_appends : appends check_description.
Proof.
  intros meta fb. unfold check_description, add.
  repeat (case_match; try done).
Qed.

Lemma check_robots_appends : appends check_robots.
Proof.
  intros meta fb. unfold check_robots, add.
  repeat (case_match; simpl; try done); by rewrite ?app_nil_r, <- ?app_assoc.
Qed.

Lemma check_canonical_appends : appends check_canonical.
Proof. intros meta fb. unfold check_canonical, add. by case_match. Qed.

Lemma check_og_text_appends : appends check_og_text.
Proof. intros meta fb. unfold check_og_text, add. by case_match. Qed.

Lemma check_og_image_appends : appends check_og_image.
Proof. intros meta fb. unfold check_og_image, add. by case_match. Qed.

Lemma check_twitter_appends : appends check_twitter.
Proof. intros meta fb. unfold check_twitter, add. by case_match. Qed.

(** The feedback list is the concatenation of what the seven blocks add,
    in the order of the source. *)
Lemma generate_feedback_blocks meta :
  generate_feedback meta =
    check_title meta [] ++ check_description meta []
    ++ check_robots meta [] ++ check_canonical meta []
    ++ check_og_text meta [] ++ check_og_image meta []
    ++ check_twitter meta [].
Proof.
  unfold generate_feedback.
  rewrite check_twitter_appends, check_og_image_appends,
    check_og_text_appends, check_canonical_appends, check_robots_appends,
    check_description_appends.
  by rewrite <- !app_assoc.
Qed.

Lemma check_canonical_one meta : length (check_canonical meta []) = 1.
Proof. unfold check_canonical, add. by case_match. Qed.

Lemma check_og_text_one meta : length (check_og_text meta []) = 1.
Proof. unfold check_og_text, add. by case_match. Qed.

Lemma check_og_image_one meta : length (check_og_image meta []) = 1.
Proof. unfold check_og_image, add. by case_match. Qed.

Lemma check_twitter_one meta : length (check_twitter meta []) = 1.
Proof. unfold check_twitter, add. by case_match. Qed.

Lemma check_title_one meta : length (check_title meta []) = 1.
Proof. unfold check_title, add. by repeat case_match. Qed.

Lemma check_description_one meta : length (check_description meta []) = 1.
Proof. unfold check_description, add. by repeat case_match. Qed.

Lemma check_robots_at_most_two meta : length (check_robots meta []) ≤ 2.
Proof. unfold check_robots, add. repeat case_match; simpl; lia. Qed.

End Blocks.

(** ** URL normaliser: theorems *)

Section Normalizer.

Lemma normalize_url_prefixed u :
  begins_with "http://" (Py.strip u) ∨ begins_with "https://" (Py.strip u) →
  normalize_url u = Py.strip u.
Proof.
  intros H. unfold normalize_url.
  destruct H as [H|H]; apply startswith_begins in H; rewrite H; simpl;
    [done | by rewrite andb_false_r].
Qed.

Lemma normalize_url_bare u :
  ¬ begins_with "http://" (Py.strip u) →
  ¬ begins_with "https://" (Py.strip u) →
  normalize_url u = "https://" +:+ Py.strip u.
Proof.
  intros H1%startswith_not_begins H2%startswith_not_begins.
  unfold normalize_url. by rewrite H1, H2.
Qed.

(** A normalised URL has no whitespace at either end. *)
Lemma normalize_url_trimmed u :
  (∀ c, Py.head_char (normalize_url u) = Some c → Py.isspace c = false)
  ∧ (∀ c, Py.last_char (normalize_url u) = Some c → Py.isspace c = false).
Proof.
  destruct (strip_is_trim u) as (_ & Hhd & Hlt). unfold normalize_url.
  destruct (negb _ && negb _); [|done]. split.
  - intros c [= <-]. reflexivity.
  - destruct (Py.strip u) as [|d s] eqn:Hs.
    + intros c [= <-]. reflexivity.
    + intros c. rewrite last_char_app_String. apply Hlt.
Qed.

(** A normalised URL begins with one of the two schemes. *)
Lemma normalize_url_has_scheme u :
  begins_with "http://" (normalize_url u)
  ∨ begins_with "https://" (normalize_url u).
Proof.
  unfold normalize_url.
  destruct (Py.startswith (Py.strip u) "http://") eqn:H1; simpl.
  { left. by apply startswith_begins. }
  destruct (Py.startswith (Py.strip u) "https://") eqn:H2; simpl.
  { right. by apply startswith_begins. }
  right. by exists (Py.strip u).
Qed.

End Normalizer.

(** C7.  For every input string, normalize trims leading and trailing
    whitespace and then prepends ["https://"] exactly when the trimmed
    string begins with neither ["http://"] nor ["https://"]; it returns a
    string on every input.  [normalize("example.com")] is
    ["https://example.com"] and [normalize(" http://x.com ")] is
    ["http://x.com"]. *)
Theorem normalize_url_trim_then_scheme (u : string) :
  (∃ t, is_trim_of t u)
  ∧ (∀ t, is_trim_of t u →
       (begins_with "http://" t ∨ begins_with "https://" t →
        normalize_url u = t)
       ∧ (¬ begins_with "http://" t → ¬ begins_with "https://" t →
          normalize_url u = "https://" +:+ t)
       ∧ (normalize_url u = "https://" +:+ t ↔
          ¬ begins_with "http://" t ∧ ¬ begins_with "https://" t))
  ∧ normalize_url "example.com" = "https://example.com"
  ∧ normalize_url " http://x.com " = "http://x.com".
Proof.
  split; [exists (Py.strip u); apply strip_is_trim|].
  split; [|by split].
  intros t Ht. apply trim_is_strip in Ht as ->.
  split; [apply normalize_url_prefixed|].
  split; [apply normalize_url_bare|].
  split.
  - intros Heq. split; intros Hb.
    + rewrite normalize_url_prefixed in Heq by auto.
      apply (f_equal String.length) in Heq.
      rewrite length_app_s in Heq. simpl in Heq. lia.
    + rewrite normalize_url_prefixed in Heq by auto.
      apply (f_equal String.length) in Heq.
      rewrite length_app_s in Heq. simpl in Heq. lia.
  - intros [H1 H2]. by apply normalize_url_bare.
Qed.

Lemma normalize_url_trim_then_scheme_witness :
  is_trim_of "http://x.com" " http://x.com "
  ∧ normalize_url " http://x.com " = "http://x.com".
Proof.
  assert (Ht : is_trim_of "http://x.com" " http://x.com ").
  { split; [|split].
    - exists " ", " ". repeat split; reflexivity.
    - intros c [= <-]. reflexivity.
    - intros c [= <-]. reflexivity. }
  split; [exact Ht|].
  destruct (normalize_url_trim_then_scheme " http://x.com ") as (_ & Hspec & _).
  destruct (Hspec _ Ht) as (Hpre & _).
  apply Hpre. left. exists "x.com". reflexivity.
Defined.

(** C8.  URL normalisation is idempotent. *)
Theorem normalize_url_idempotent (u : string) :
  normalize_url (normalize_url u) = normalize_url u.
Proof.
  destruct (normalize_url_trimmed u) as [Hhd Hlt].
  rewrite (normalize_url_prefixed (normalize_url u)).
  - by apply strip_fixed.
  - rewrite strip_fixed by done. apply normalize_url_has_scheme.
Qed.

(** ** Feedback generator: theorems *)

(** C1.  The title check emits exactly one item, the first of the feedback
    list: [error] on an empty title, otherwise [warning] below 30
    characters, [warning] above 65, and [ok] from 30 to 65 inclusive. *)
Theorem title_check_levels (meta : gmap string string) :
  let title := get meta "title" "" in
  ∃ item,
    (∀ feedback, check_title meta feedback = feedback ++ [item])
    ∧ generate_feedback meta !! 0 = Some item
    ∧ (title = "" → level item = "error")
    ∧ (title ≠ "" → String.length title < 30 → level item = "warning")
    ∧ (title ≠ "" → 65 < String.length title → level item = "warning")
    ∧ (title ≠ "" → 30 ≤ String.length title ≤ 65 → level item = "ok")
    ∧ (String.length title = 30 ∨ String.length title = 65 → level item = "ok")
    ∧ (String.length title = 29 ∨ String.length title = 66 →
       level item = "warning").
Proof.
  intros title.
  assert (∃ item, check_title meta [] = [item]
    ∧ (title = "" → level item = "error")
    ∧ (title ≠ "" → String.length title < 30 → level item = "warning")
    ∧ (title ≠ "" → 65 < String.length title → level item = "warning")
    ∧ (title ≠ "" → 30 ≤ String.length title ≤ 65 → level item = "ok"))
    as (item & Hone & He & Hs & Hl & Hok).
  { unfold check_title, add. fold title.
    destruct (Py.truthy title) eqn:Ht; simpl.
    - apply truthy_true in Ht.
      destruct (String.length title <? 30) eqn:H30;
        [|destruct (65 <? String.length title) eqn:H65];
        eexists; (split; [reflexivity|]); simpl;
        repeat split; intros; try done; try congruence;
        apply Nat.ltb_lt in H30 || apply Nat.ltb_ge in H30;
        try (apply Nat.ltb_lt in H65 || apply Nat.ltb_ge in H65); lia.
    - apply truthy_false in Ht.
      eexists; (split; [reflexivity|]); simpl; repeat split; intros; done. }
  exists item. split; [|split].
  - intros fb. by rewrite check_title_appends, Hone.
  - by rewrite generate_feedback_blocks, Hone.
  - repeat split; try done.
    + intros H. apply Hok; [|lia]. intros E. rewrite E in H. simpl in H. lia.
    + intros [H|H].
      * apply Hs; [|lia]. intros E. rewrite E in H. simpl in H. lia.
      * apply Hl; [|lia]. intros E. rewrite E in H. simpl in H. lia.
Qed.

Lemma title_check_levels_witness :
  ∃ item,
    generate_feedback {["title" := "A title of exactly thirty char"]} !! 0
      = Some item
    ∧ level item = "ok".
Proof.
  destruct (title_check_levels {["title" := "A title of exactly thirty char"]})
    as (item & _ & Hhead & _ & _ & _ & Hok & _).
  exists item. split; [exact Hhead|].
  apply Hok; [discriminate | vm_compute; lia].
Defined.

(** C2.  The description check emits exactly one item, the second of the
    feedback list: [error] on an empty description, otherwise [warning]
    below 50 characters, [warning] above 170, and [ok] from 50 to 170
    inclusive. *)
Theorem description_check_levels (meta : gmap string string) :
  let description := get meta "description" "" in
  ∃ item,
    (∀ feedback, check_description meta feedback = feedback ++ [item])
    ∧ generate_feedback meta !! 1 = Some item
    ∧ (description = "" → level item = "error")
    ∧ (description ≠ "" → String.length description < 50 →
       level item = "warning")
    ∧ (description ≠ "" → 170 < String.length description →
       level item = "warning")
    ∧ (description ≠ "" → 50 ≤ String.length description ≤ 170 →
       level item = "ok").
Proof.
  intros description.
  assert (∃ item, check_description meta [] = [item]
    ∧ (description = "" → level item = "error")
    ∧ (description ≠ "" → String.length description < 50 →
       level item = "warning")
    ∧ (description ≠ "" → 170 < String.length description →
       level item = "warning")
    ∧ (description ≠ "" → 50 ≤ String.length description ≤ 170 →
       level item = "ok"))
    as (item & Hone & Hlevels).
  { unfold check_description, add. fold description.
    destruct (Py.truthy description) eqn:Ht; simpl.
    - apply truthy_true in Ht.
      destruct (String.length description <? 50) eqn:H50;
        [|destruct (170 <? String.length description) eqn:H170];
        eexists; (split; [reflexivity|]); simpl;
        repeat split; intros; try done; try congruence;
        apply Nat.ltb_lt in H50 || apply Nat.ltb_ge in H50;
        try (apply Nat.ltb_lt in H170 || apply Nat.ltb_ge in H170); lia.
    - apply truthy_false in Ht.
      eexists; (split; [reflexivity|]); simpl; repeat split; intros; done. }
  exists item. split; [|split; [|exact Hlevels]].
  - intros fb. by rewrite check_description_appends, Hone.
  - rewrite generate_feedback_blocks, Hone.
    pose proof (check_title_one meta) as H1.
    destruct (check_title meta []) as [|t [|??]]; by simplify_eq/=.
Qed.

Lemma description_check_levels_witness :
  ∃ item,
    generate_feedback
      {["description" :=
          "A description of one hundred and sixty five characters "
          +:+ "0123456789012345678901234567890123456789012345678901234"
          +:+ "5678901234567890123456789012345678901234567890123456789"]} !! 1
      = Some item
    ∧ level item = "ok".
Proof.
  destruct (description_check_levels
    {["description" :=
        "A description of one hundred and sixty five characters "
        +:+ "0123456789012345678901234567890123456789012345678901234"
        +:+ "5678901234567890123456789012345678901234567890123456789"]})
    as (item & _ & Hsecond & _ & _ & _ & Hok).
  exists item. split; [exact Hsecond|].
  apply Hok; [discriminate | vm_compute; lia].
Defined.

Section Robots.

Lemma lower_empty s : Py.lower s = "" → s = "".
Proof. by destruct s. Qed.

(** A value in which a non-empty directive occurs is not empty. *)
Lemma contains_ci_nonempty sub s : sub ≠ "" → contains_ci sub s → s ≠ "".
Proof.
  intros Hsub (pre & mid & post & -> & Hm) He.
  apply app_eq_empty in He as [_ He]. apply app_eq_empty in He as [-> _].
  simpl in Hm. symmetry in Hm. by apply lower_empty in Hm.
Qed.

(** What the robots block adds, by cases on the two directives. *)
Lemma check_robots_cases (meta : gmap string string) :
  let robots := get meta "robots" "" in
  check_robots meta [] =
    if Py.truthy robots then
      (if Py.contains "noindex" (Py.lower robots) then [noindex_warning] else [])
      ++ (if Py.contains "nofollow" (Py.lower robots) then [nofollow_warning] else [])
    else [no_robots_ok].
Proof.
  intros robots. unfold check_robots, add. fold robots.
  rewrite lower_truthy. by repeat case_match.
Qed.

End Robots.

(** C3.  The robots check emits a single [ok] item when the robots value
    is empty; it emits a warning when the value contains [noindex] and,
    independently, another when it contains [nofollow], letter case
    ignored, the [noindex] warning first.  The value
    ["noindex, nofollow"] yields exactly the two warnings in that order.
    The items of the robots check follow the title and description
    items. *)
Theorem robots_check_directives (meta : gmap string string)
    (feedback : list FeedbackItem) :
  let robots := get meta "robots" "" in
  (robots = "" → check_robots meta feedback = feedback ++ [no_robots_ok])
  ∧ (contains_ci "noindex" robots → contains_ci "nofollow" robots →
     check_robots meta feedback = feedback ++ [noindex_warning; nofollow_warning])
  ∧ (contains_ci "noindex" robots → ¬ contains_ci "nofollow" robots →
     check_robots meta feedback = feedback ++ [noindex_warning])
  ∧ (¬ contains_ci "noindex" robots → contains_ci "nofollow" robots →
     check_robots meta feedback = feedback ++ [nofollow_warning])
  ∧ (robots = "noindex, nofollow" →
     check_robots meta feedback = feedback ++ [noindex_warning; nofollow_warning])
  ∧ (∃ t d rest,
       generate_feedback meta = [t; d] ++ check_robots meta [] ++ rest)
  ∧ level no_robots_ok = "ok"
  ∧ level noindex_warning = "warning"
  ∧ level nofollow_warning = "warning".
Proof.
  intros robots.
  assert (Hpos : ∃ t d rest,
    generate_feedback meta = [t; d] ++ check_robots meta [] ++ rest).
  { rewrite generate_feedback_blocks.
    pose proof (check_title_one meta) as H1.
    pose proof (check_description_one meta) as H2.
    destruct (check_title meta []) as [|t [|??]]; simplify_eq/=.
    destruct (check_description meta []) as [|d [|??]]; simplify_eq/=.
    by eexists _, _, _. }
  revert Hpos. generalize (generate_feedback meta). intros items Hpos.
  rewrite check_robots_appends.
  pose proof (check_robots_cases meta) as Hc. fold robots in Hc. simpl in Hc.
  revert Hpos. rewrite Hc. clear Hc. intros Hpos.
  split; [by intros ->|].
  assert (Hni : ∀ sub, sub = "noindex" ∨ sub = "nofollow" →
    contains_ci sub robots →
    Py.truthy robots = true ∧ Py.contains sub (Py.lower robots) = true).
  { intros sub Hsub Hci. split.
    - apply truthy_true. apply (contains_ci_nonempty sub); [|done].
      by destruct Hsub as [-> | ->].
    - apply contains_lower_ci; [|done]. by destruct Hsub as [-> | ->]. }
  assert (Hno : ∀ sub, sub = "noindex" ∨ sub = "nofollow" →
    ¬ contains_ci sub robots → Py.contains sub (Py.lower robots) = false).
  { intros sub Hsub Hci. apply contains_lower_not_ci; [|done].
    by destruct Hsub as [-> | ->]. }
  split.
  { intros [Ht H1]%(Hni "noindex") [_ H2]%(Hni "nofollow"); auto.
    by rewrite Ht, H1, H2. }
  split.
  { intros [Ht H1]%(Hni "noindex") H2%(Hno "nofollow"); auto.
    by rewrite Ht, H1, H2. }
  split.
  { intros H1%(Hno "noindex") [Ht H2]%(Hni "nofollow"); auto.
    by rewrite Ht, H1, H2. }
  split; [by intros ->|].
  by split.
Qed.

Lemma robots_check_directives_witness :
  check_robots {["robots" := "NOINDEX, NoFollow"]} []
  = [noindex_warning; nofollow_warning].
Proof.
  destruct (robots_check_directives {["robots" := "NOINDEX, NoFollow"]} [])
    as (_ & Hboth & _).
  apply Hboth.
  - exists "", "NOINDEX", ", NoFollow". split; reflexivity.
  - exists "NOINDEX, ", "NoFollow", "". split; reflexivity.
Defined.

(** C10.  The feedback list has at least 6 and at most 8 items: the title,
    description, canonical, Open Graph title/description, Open Graph image
    and Twitter card checks add one item each and the robots check adds at
    most two; a non-empty robots value that contains neither [noindex] nor
    [nofollow] adds no item. *)
Theorem feedback_between_six_and_eight (meta : gmap string string) :
  let robots := get meta "robots" "" in
  6 ≤ length (generate_feedback meta) ≤ 8
  ∧ generate_feedback meta =
      check_title meta [] ++ check_description meta []
      ++ check_robots meta [] ++ check_canonical meta []
      ++ check_og_text meta [] ++ check_og_image meta []
      ++ check_twitter meta []
  ∧ length (check_title meta []) = 1
  ∧ length (check_description meta []) = 1
  ∧ length (check_robots meta []) ≤ 2
  ∧ length (check_canonical meta []) = 1
  ∧ length (check_og_text meta []) = 1
  ∧ length (check_og_image meta []) = 1
  ∧ length (check_twitter meta []) = 1
  ∧ (robots ≠ "" → ¬ contains_ci "noindex" robots →
     ¬ contains_ci "nofollow" robots →
     ∀ feedback, check_robots meta feedback = feedback).
Proof.
  intros robots.
  pose proof (check_title_one meta). pose proof (check_description_one meta).
  pose proof (check_robots_at_most_two meta).
  pose proof (check_canonical_one meta). pose proof (check_og_text_one meta).
  pose proof (check_og_image_one meta). pose proof (check_twitter_one meta).
  split.
  { rewrite generate_feedback_blocks, !length_app. lia. }
  split; [apply generate_feedback_blocks|].
  repeat (split; [done|]).
  intros Hne%truthy_true Hni Hnf fb.
  apply contains_lower_not_ci in Hni; [|done].
  apply contains_lower_not_ci in Hnf; [|done].
  rewrite check_robots_appends.
  pose proof (check_robots_cases meta) as Hc. fold robots in Hc. simpl in Hc.
  by rewrite Hc, Hne, Hni, Hnf, app_nil_r.
Qed.

Lemma feedback_between_six_and_eight_witness :
  check_robots {["robots" := "index, follow"]} [] = []
  ∧ length (generate_feedback {["robots" := "index, follow"]}) = 6.
Proof.
  split; [|reflexivity].
  destruct (feedback_between_six_and_eight {["robots" := "index, follow"]})
    as (_ & _ & _ & _ & _ & _ & _ & _ & _ & Hnone).
  apply Hnone.
  - discriminate.
  - apply contains_lower_not_ci; reflexivity.
  - apply contains_lower_not_ci; reflexivity.
Defined.

(** ** Metadata extractor: lemmas *)

Section Lookups.

Implicit Types (soup : list Tag) (t : Tag).

Lemma is_meta_with_test attr value t :
  bool_decide (tag_name t = "meta")
  && bool_decide (tag_attrs t !! attr = Some value) = true
  ↔ is_meta_with attr value t.
Proof.
  unfold is_meta_with.
  by rewrite andb_true_iff, !bool_decide_eq_true.
Qed.

Lemma find_attr_first attr value soup t :
  first_meta_with attr value soup t →
  find_attr soup "meta" attr value = Some t.
Proof.
  intros (pre & post & -> & Ht & Hpre). unfold find_attr.
  induction Hpre as [|x pre Hx _ IH]; simpl.
  - apply is_meta_with_test in Ht. by rewrite Ht.
  - destruct (_ && _) eqn:E; [|exact IH].
    by apply is_meta_with_test in E.
Qed.

Lemma find_attr_none attr value soup :
  no_meta_with attr value soup →
  find_attr soup "meta" attr value = None.
Proof.
  unfold find_attr. induction 1 as [|x soup Hx _ IH]; simpl; [done|].
  destruct (_ && _) eqn:E; [|exact IH].
  by apply is_meta_with_test in E.
Qed.

(** The converse directions: what [find] returns is the first match, and
    it returns nothing only when nothing matches. *)
Lemma find_attr_Some attr value soup t :
  find_attr soup "meta" attr value = Some t →
  first_meta_with attr value soup t.
Proof.
  unfold find_attr. induction soup as [|x soup IH]; simpl; [done|].
  destruct (_ && _) eqn:E.
  - intros [= <-]. exists [], soup. apply is_meta_with_test in E.
    split; [done|]. split; [done|]. constructor.
  - intros (pre & post & -> & Ht & Hpre)%IH.
    exists (x :: pre), post. split; [done|]. split; [done|].
    constructor; [|done]. intros Hx%is_meta_with_test. congruence.
Qed.

Lemma find_attr_None attr value soup :
  find_attr soup "meta" attr value = None →
  no_meta_with attr value soup.
Proof.
  unfold find_attr. induction soup as [|x soup IH]; simpl.
  - constructor.
  - destruct (_ && _) eqn:E; [done|]. intros H. constructor; [|by apply IH].
    intros Hx%is_meta_with_test. congruence.
Qed.

Lemma stripped_attr_content t :
  stripped_attr (Some t) "content" = Py.strip (content_of t).
Proof.
  unfold stripped_attr, content_of.
  destruct (tag_attrs t !! "content") as [[|c s]|]; done.
Qed.

Lemma get_meta_by_property_first soup key t :
  first_meta_with "property" key soup t →
  get_meta_by_property soup key = Py.strip (content_of t).
Proof.
  intros H. unfold get_meta_by_property.
  rewrite (find_attr_first _ _ _ _ H). apply stripped_attr_content.
Qed.

Lemma get_meta_by_property_fallback soup key t :
  no_meta_with "property" key soup →
  first_meta_with "name" key soup t →
  get_meta_by_property soup key = Py.strip (content_of t).
Proof.
  intros Hno H. unfold get_meta_by_property.
  rewrite (find_attr_none _ _ _ Hno), (find_attr_first _ _ _ _ H).
  apply stripped_attr_content.
Qed.

Lemma get_meta_by_property_absent soup key :
  no_meta_with "property" key soup →
  no_meta_with "name" key soup →
  get_meta_by_property soup key = "".
Proof.
  intros H1 H2. unfold get_meta_by_property.
  by rewrite (find_attr_none _ _ _ H1), (find_attr_none _ _ _ H2).
Qed.

(** The literal of lines 35-51 maps each property key to its lookup. *)
Lemma meta_literal_property soup key :
  key ∈ property_keys →
  meta_literal soup !! key = Some (get_meta_by_property soup key).
Proof.
  unfold property_keys, meta_literal. intros H. set_unfold in H.
  destruct_or!; subst key;
    repeat (rewrite lookup_insert_ne by done); apply lookup_insert_eq.
Qed.

Lemma meta_literal_dom soup : dom (meta_literal soup) = list_to_set meta_keys.
Proof.
  unfold meta_literal, meta_keys, property_keys.
  rewrite !dom_insert_L, dom_empty_L. simpl. set_solver.
Qed.

End Lookups.

(** ** Metadata extractor: theorems *)

(** C4, as the code has it.  For every Open Graph or Twitter key, the
    lookup takes the content attribute, with its leading and trailing
    whitespace removed, of the first meta element whose [property]
    attribute equals the key; only when the document has no such element
    does it fall back to the first meta element whose [name] attribute
    equals the key; with neither, the value is the empty string.  Every
    such key other than [og:url] holds that value in the record.  A
    document with only [<meta property="og:title" content="A">] gives
    ["A"], one with only [<meta name="og:title" content="B">] gives
    ["B"]. *)
Theorem property_then_name_lookup (BeautifulSoup : string → list Tag)
    (html url key : string) :
  let soup := BeautifulSoup html in
  key ∈ property_keys →
  (∀ t, first_meta_with "property" key soup t →
        is_trim_of (get_meta_by_property soup key) (content_of t))
  ∧ (no_meta_with "property" key soup →
     ∀ t, first_meta_with "name" key soup t →
          is_trim_of (get_meta_by_property soup key) (content_of t))
  ∧ (no_meta_with "property" key soup → no_meta_with "name" key soup →
     get_meta_by_property soup key = "")
  ∧ (key ≠ "og:url" →
     extract_meta_tags BeautifulSoup html url !! key
     = Some (get_meta_by_property soup key))
  ∧ get_meta_by_property [meta_tag "property" "og:title" "A"] "og:title" = "A"
  ∧ get_meta_by_property [meta_tag "name" "og:title" "B"] "og:title" = "B".
Proof.
  intros soup Hkey. split; [|split; [|split; [|split; [|done]]]].
  - intros t Ht. rewrite (get_meta_by_property_first _ _ _ Ht).
    apply strip_is_trim.
  - intros Hno t Ht. rewrite (get_meta_by_property_fallback _ _ _ Hno Ht).
    apply strip_is_trim.
  - apply get_meta_by_property_absent.
  - intros Hne. unfold extract_meta_tags, extract_from_soup. fold soup.
    destruct (negb _).
    + rewrite lookup_insert_ne by done. by apply meta_literal_property.
    + by apply meta_literal_property.
Qed.

Lemma property_then_name_lookup_witness :
  is_trim_of
    (get_meta_by_property [meta_tag "name" "twitter:card" " summary "]
       "twitter:card")
    (content_of (meta_tag "name" "twitter:card" " summary ")).
Proof.
  destruct (property_then_name_lookup
              (λ _, [meta_tag "name" "twitter:card" " summary "])
              "" "https://a.com/" "twitter:card")
    as (_ & Hname & _).
  - unfold property_keys. set_solver.
  - apply Hname.
    + constructor; [|constructor]. intros [_ Hp]. vm_compute in Hp. discriminate.
    + exists [], []. split; [reflexivity|]. split; [|constructor].
      split; reflexivity.
Defined.

(** C4, as the claim words it, fails: the value is not always the content
    attribute itself.  The only meta element of this document has
    [property="og:title"] and the content [" A "]; the lookup gives
    ["A"]. *)
Lemma content_attribute_is_trimmed :
  let t := meta_tag "property" "og:title" " A " in
  first_meta_with "property" "og:title" [t] t
  ∧ tag_attrs t !! "content" = Some " A "
  ∧ get_meta_by_property [t] "og:title" = "A"
  ∧ get_meta_by_property [t] "og:title" ≠ " A ".
Proof.
  intros t. split; [|by split].
  exists [], []. split; [reflexivity|]. split; [|constructor].
  split; reflexivity.
Qed.

(** C5.  When the [og:url] lookup (property, then name) gives the empty
    string, the record's [og:url] is the resolved request URL; otherwise
    it is the value looked up.  A document with no [og:url] meta element,
    requested as ["https://a.com/"], gives [og:url = "https://a.com/"]. *)
Theorem og_url_falls_back_to_request_url (BeautifulSoup : string → list Tag)
    (html url : string) :
  let soup := BeautifulSoup html in
  let found := get_meta_by_property soup "og:url" in
  let meta := extract_meta_tags BeautifulSoup html url in
  (found = "" → meta !! "og:url" = Some url)
  ∧ (found ≠ "" → meta !! "og:url" = Some found)
  ∧ (no_meta_with "property" "og:url" soup →
     no_meta_with "name" "og:url" soup →
     meta !! "og:url" = Some url)
  ∧ extract_from_soup [] "https://a.com/" !! "og:url" = Some "https://a.com/".
Proof.
  intros soup found meta.
  assert (Hlit : meta_literal soup !! "og:url" = Some found).
  { apply meta_literal_property. unfold property_keys. set_solver. }
  assert (He : found = "" → meta !! "og:url" = Some url).
  { intros Hf. unfold meta, extract_meta_tags, extract_from_soup. fold soup.
    rewrite (lookup_total_correct _ _ _ Hlit), Hf. simpl.
    apply lookup_insert_eq. }
  split; [exact He|]. split; [|split; [|done]].
  - intros Hf%truthy_true.
    unfold meta, extract_meta_tags, extract_from_soup. fold soup.
    by rewrite (lookup_total_correct _ _ _ Hlit), Hf.
  - intros H1 H2. apply He. by apply get_meta_by_property_absent.
Qed.

Lemma og_url_falls_back_to_request_url_witness :
  let title := {| tag_name := "title"; tag_attrs := ∅; tag_rel := [];
                  tag_string := Some "Hi" |} in
  extract_meta_tags (λ _, [title]) "<title>Hi</title>" "https://a.com/"
    !! "og:url"
  = Some "https://a.com/".
Proof.
  intros title.
  destruct (og_url_falls_back_to_request_url (λ _, [title])
              "<title>Hi</title>" "https://a.com/") as (_ & _ & Hnone & _).
  apply Hnone.
  - constructor; [|constructor]. intros [Hn _]. discriminate.
  - constructor; [|constructor]. intros [Hn _]. discriminate.
Defined.

(** C6.  The record returned by extraction has exactly the thirteen fixed
    keys, each mapped to a string, whatever the page contains; on a page
    without any tag every value but [og:url] is the empty string. *)
Theorem meta_record_has_thirteen_keys (BeautifulSoup : string → list Tag)
    (html url : string) :
  let meta := extract_meta_tags BeautifulSoup html url in
  dom meta = list_to_set meta_keys
  ∧ Forall (λ key, is_Some (meta !! key)) meta_keys
  ∧ size meta = 13
  ∧ extract_from_soup [] url
    = <["og:url" := url]> (gset_to_gmap "" (list_to_set meta_keys)).
Proof.
  intros meta.
  assert (Hdom : dom meta = list_to_set meta_keys).
  { unfold meta, extract_meta_tags, extract_from_soup.
    destruct (negb _); [|apply meta_literal_dom].
    rewrite dom_insert_L, meta_literal_dom.
    unfold meta_keys, property_keys. set_solver. }
  split; [exact Hdom|]. split; [|split].
  - apply Forall_forall. intros key Hk. apply elem_of_dom. rewrite Hdom.
    by apply elem_of_list_to_set.
  - rewrite <- size_dom, Hdom. by vm_compute.
  - apply map_eq. intros key. unfold extract_from_soup.
    change (Py.truthy (meta_literal [] !!! "og:url")) with false. simpl.
    destruct (decide (key = "og:url")) as [->|Hne].
    + by rewrite !lookup_insert_eq.
    + rewrite !lookup_insert_ne by done.
      rewrite lookup_gset_to_gmap. unfold meta_literal.
      repeat (rewrite lookup_insert; case_decide;
              [subst key; by rewrite option_guard_True by set_solver|]).
      rewrite lookup_empty. rewrite option_guard_False; [done|].
      unfold meta_keys, property_keys. intros Hin. set_unfold in Hin.
      destruct_or!; congruence.
Qed.

(** ** The [/analyze] endpoint: theorems *)

Section Endpoint.

Variable BeautifulSoup : string → list Tag.
Variable requests_get : string → FetchResult.
Variable urlparse : string → ParseResult.

(** With a URL that is not empty after trimming, the handler calls the
    HTTP client exactly once, on the normalised URL. *)
Lemma analyze_fetches_once fields s log :
  fields !! "url" = Some (JStr s) → Py.strip s ≠ "" →
  (analyze BeautifulSoup requests_get urlparse (JObject fields) log).1 = log ++ [normalize_url (Py.strip s)].
Proof.
  intros Hf Hs%truthy_true. unfold analyze, bind, url_field, ret.
  rewrite Hf. simpl. rewrite Hs. simpl.
  unfold try_except, http_get, bind, ret.
  by destruct (requests_get _).
Qed.

(** A failed fetch is answered with status 400 and the cause. *)
Lemma analyze_fetch_failure fields s log cause :
  fields !! "url" = Some (JStr s) → Py.strip s ≠ "" →
  requests_get (normalize_url (Py.strip s)) = FetchFail cause →
  (analyze BeautifulSoup requests_get urlparse (JObject fields) log).2
  = inr {| payload := ErrorPayload ("Error fetching URL: " +:+ cause);
           status := 400 |}.
Proof.
  intros Hf Hs%truthy_true Hfail. unfold analyze, bind, url_field, ret.
  rewrite Hf. simpl. rewrite Hs. simpl.
  unfold try_except, http_get, bind, ret. by rewrite Hfail.
Qed.

End Endpoint.

(** C9.  When the caller supplies an empty URL (the [url] field is missing,
    or empty after trimming), the handler answers with an error payload
    and the client-error status 400, and the HTTP client is not called:
    the list of fetched URLs is unchanged. *)
Theorem analyze_empty_url_no_fetch (BeautifulSoup : string → list Tag)
    (requests_get : string → FetchResult) (urlparse : string → ParseResult)
    (fields : gmap string JsonValue) (log : list string) :
  fields !! "url" = None
  ∨ (∃ s, fields !! "url" = Some (JStr s) ∧ is_trim_of "" s) →
  ∃ response,
    analyze BeautifulSoup requests_get urlparse (JObject fields) log
    = (log, inr response)
    ∧ payload response = ErrorPayload "No URL provided."
    ∧ 400 ≤ status response < 500.
Proof.
  intros H. exists {| payload := ErrorPayload "No URL provided."; status := 400 |}.
  split; [|simpl; split; [done|lia]].
  unfold analyze, bind, url_field, ret.
  destruct H as [-> | (s & -> & Hs%trim_is_strip)]; simpl; [done|].
  by rewrite <- Hs.
Qed.

Lemma analyze_empty_url_no_fetch_witness :
  ∃ response,
    analyze (λ _, []) (λ _, FetchOk "")
      (λ _, {| scheme := ""; netloc := ""; path := "" |})
      (JObject {["url" := JStr "  "]}) []
    = ([], inr response)
    ∧ payload response = ErrorPayload "No URL provided."
    ∧ 400 ≤ status response < 500.
Proof.
  apply analyze_empty_url_no_fetch.
  right. exists "  ". split; [reflexivity|].
  split; [|split].
  - exists "  ", "". repeat split; reflexivity.
  - intros c Hc. discriminate.
  - intros c Hc. discriminate.
Defined.

(** * Further properties of the code *)

(** ** URL normaliser *)

Section Padding.

Lemma all_space_app (a b : string) :
  all_space (a +:+ b) ↔ all_space a ∧ all_space b.
Proof.
  induction a as [|c a IH]; [by rewrite app_empty_l; intuition|].
  rewrite app_String. simpl. rewrite IH. intuition.
Qed.

Lemma strip_all_space s : Py.strip s = "" ↔ all_space s.
Proof.
  split.
  - intros H. destruct (strip_is_trim s) as [(l & r & Hs & Hl & Hr) _].
    rewrite H, app_empty_l in Hs. rewrite Hs. by apply all_space_app.
  - intros H. symmetry. apply trim_is_strip. split; [|by split].
    exists "", s. by rewrite !app_empty_l.
Qed.

(** Whitespace around a string does not change what [strip] gives. *)
Lemma strip_padding l u r :
  all_space l → all_space r → Py.strip (l +:+ u +:+ r) = Py.strip u.
Proof.
  intros Hl Hr. symmetry. apply trim_is_strip.
  destruct (strip_is_trim u) as [(l' & r' & Hu & Hl' & Hr') Htrim].
  split; [|exact Htrim].
  exists (l +:+ l'), (r' +:+ r). split; [|split].
  - rewrite Hu at 1. by rewrite !app_assoc_s.
  - by apply all_space_app.
  - by apply all_space_app.
Qed.

Lemma begins_with_head p s c d p' s' :
  p = String c p' → s = String d s' → begins_with p s → c = d.
Proof. intros -> -> [r Hr]. rewrite app_String in Hr. congruence. Qed.

End Padding.

(** X1.  Whatever the input, a normalised URL begins with ["http://"] or
    ["https://"], has no whitespace at either end and is not empty. *)
Theorem normalize_url_scheme_and_trimmed (u : string) :
  has_scheme (normalize_url u)
  ∧ is_trimmed (normalize_url u)
  ∧ normalize_url u ≠ "".
Proof.
  pose proof (normalize_url_has_scheme u) as Hs.
  split; [exact Hs|]. split; [apply normalize_url_trimmed|].
  intros E. rewrite E in Hs. destruct Hs as [[r Hr]|[r Hr]]; discriminate Hr.
Qed.

(** X2.  Whitespace before and after the input is ignored: padding an input
    on both sides does not change its normal form. *)
Theorem normalize_url_ignores_padding (l u r : string) :
  all_space l → all_space r →
  normalize_url (l +:+ u +:+ r) = normalize_url u.
Proof.
  intros Hl Hr. unfold normalize_url. by rewrite strip_padding.
Qed.

Lemma normalize_url_ignores_padding_witness :
  normalize_url ("  " +:+ "x.com/a b" +:+ " ") = normalize_url "x.com/a b".
Proof.
  apply normalize_url_ignores_padding; simpl; repeat split; reflexivity.
Defined.

(** X3.  An input that is empty or all whitespace is not rejected: it
    normalises to the bare scheme ["https://"]. *)
Theorem normalize_url_blank (u : string) :
  all_space u → normalize_url u = "https://".
Proof.
  intros H%strip_all_space. unfold normalize_url. by rewrite H.
Qed.

Lemma normalize_url_blank_witness : normalize_url "   " = "https://".
Proof.
  apply normalize_url_blank. simpl. repeat split; reflexivity.
Defined.

(** X4.  The scheme test is case-sensitive: a trimmed input that begins
    with ["HTTP://"] or ["HTTPS://"] in capitals is taken to have no
    scheme and gets ["https://"] in front. *)
Theorem normalize_url_scheme_case_sensitive (u t : string) :
  is_trim_of t u →
  begins_with "HTTP://" t ∨ begins_with "HTTPS://" t →
  normalize_url u = "https://" +:+ t.
Proof.
  intros Ht Hb. rewrite (trim_is_strip _ _ Ht) in *.
  assert (Hc : ∀ r, Py.strip u = String "H" r → ∀ p p', p = String "h" p' →
                    ¬ begins_with p (Py.strip u)).
  { intros r Hr p p' Hp Hbp.
    pose proof (begins_with_head _ _ _ _ _ _ Hp Hr Hbp). discriminate. }
  assert (∃ r, Py.strip u = String "H" r) as [r Hr].
  { destruct Hb as [[r ->]|[r ->]]; eexists; reflexivity. }
  apply normalize_url_bare; by eapply Hc.
Qed.

Lemma normalize_url_scheme_case_sensitive_witness :
  normalize_url " HTTP://x.com" = "https://HTTP://x.com".
Proof.
  apply (normalize_url_scheme_case_sensitive " HTTP://x.com" "HTTP://x.com").
  - split; [|split].
    + exists " ", "". repeat split; reflexivity.
    + intros c [= <-]. reflexivity.
    + intros c [= <-]. reflexivity.
  - left. exists "x.com". reflexivity.
Defined.

(** ** Metadata extractor *)

Section Finding.

Implicit Types (soup : list Tag) (t : Tag).

(** [List.find] returns the first tag that passes the test, and nothing
    when no tag passes. *)
Lemma find_first_such (p : Tag → bool) (P : Tag → Prop) soup :
  (∀ x, p x = true ↔ P x) →
  (∀ t, first_such P soup t → List.find p soup = Some t)
  ∧ (Forall (λ x, ¬ P x) soup → List.find p soup = None).
Proof.
  intros Hp. split.
  - intros t (pre & post & -> & Ht & Hpre).
    induction Hpre as [|x pre Hx _ IH]; simpl.
    + apply Hp in Ht. by rewrite Ht.
    + destruct (p x) eqn:E; [|exact IH]. by apply Hp in E.
  - induction 1 as [|x l Hx _ IH]; simpl; [done|].
    destruct (p x) eqn:E; [|exact IH]. by apply Hp in E.
Qed.

Lemma first_meta_with_such attr value soup t :
  first_meta_with attr value soup t
  ↔ first_such (is_meta_with attr value) soup t.
Proof. done. Qed.

(** A value in which a space occurs between two parts. *)
Lemma contains_space_between (a b : string) :
  Py.contains " " (a +:+ " " +:+ b) = true.
Proof. apply contains_occurs. by exists a, b. Qed.

(** A multi-valued attribute matches a non-empty name without spaces
    exactly when the name is one of its tokens. *)
Lemma rel_matches_token tokens rel :
  rel ≠ "" → Py.contains " " rel = false →
  rel_matches tokens rel = true ↔ rel ∈ tokens.
Proof.
  intros Hne Hsp. unfold rel_matches. rewrite orb_true_iff. split.
  - intros [H|H].
    + apply existsb_exists in H as (x & Hx & Heq).
      apply String.eqb_eq in Heq as ->. by apply list_elem_of_In.
    + apply String.eqb_eq in H. destruct tokens as [|a [|b l]].
      * simpl in H. congruence.
      * simpl in H. subst. by left.
      * change (a +:+ " " +:+ String.concat " " (b :: l) = rel) in H.
        rewrite <- H, contains_space_between in Hsp. discriminate.
  - intros H. left. apply existsb_exists. exists rel.
    split; [by apply list_elem_of_In | apply String.eqb_refl].
Qed.

Lemma is_link_with_rel_test t :
  bool_decide (tag_name t = "link") && rel_matches (tag_rel t) "canonical" = true
  ↔ is_link_with_rel "canonical" t.
Proof.
  unfold is_link_with_rel.
  rewrite andb_true_iff, bool_decide_eq_true.
  by rewrite rel_matches_token.
Qed.

Lemma is_title_test t : bool_decide (tag_name t = "title") = true ↔ is_title t.
Proof. apply bool_decide_eq_true. Qed.

Lemma stripped_attr_strip t attr :
  stripped_attr (Some t) attr = Py.strip (default "" (tag_attrs t !! attr)).
Proof.
  unfold stripped_attr. destruct (tag_attrs t !! attr) as [[|c s]|]; done.
Qed.

Lemma strip_trimmed s : is_trimmed (Py.strip s).
Proof. by destruct (strip_is_trim s) as [_ H]. Qed.

Lemma empty_trimmed : is_trimmed "".
Proof. by split. Qed.

Lemma stripped_attr_trimmed tag attr : is_trimmed (stripped_attr tag attr).
Proof.
  destruct tag as [t|]; [|apply empty_trimmed].
  rewrite stripped_attr_strip. apply strip_trimmed.
Qed.

Lemma soup_title_trimmed soup : is_trimmed (soup_title soup).
Proof.
  unfold soup_title. destruct (find_tag soup "title") as [t|];
    [|apply empty_trimmed].
  destruct (truthy_opt _); [apply strip_trimmed | apply empty_trimmed].
Qed.

Lemma meta_literal_trimmed soup :
  map_Forall (λ _ value, is_trimmed value) (meta_literal soup).
Proof.
  unfold meta_literal, get_meta_by_property, get_meta_by_name, get_link_rel.
  repeat (apply map_Forall_insert_2;
          [first [apply stripped_attr_trimmed | apply soup_title_trimmed]|]).
  apply map_Forall_empty.
Qed.

Lemma meta_literal_name soup name :
  name ∈ ["description"; "robots"] →
  meta_literal soup !! name = Some (get_meta_by_name soup name).
Proof.
  unfold meta_literal. intros H. set_unfold in H.
  destruct_or!; subst name;
    repeat (rewrite lookup_insert_ne by done); apply lookup_insert_eq.
Qed.

Lemma meta_literal_canonical soup :
  meta_literal soup !! "canonical" = Some (get_link_rel soup "canonical").
Proof.
  unfold meta_literal.
  repeat (rewrite lookup_insert_ne by done). apply lookup_insert_eq.
Qed.

Lemma meta_literal_title soup :
  meta_literal soup !! "title" = Some (soup_title soup).
Proof.
  unfold meta_literal.
  repeat (rewrite lookup_insert_ne by done). apply lookup_insert_eq.
Qed.

(** Apart from [og:url], the record is the literal of lines 35-51. *)
Lemma extract_from_soup_other soup url key :
  key ≠ "og:url" →
  extract_from_soup soup url !! key = meta_literal soup !! key.
Proof.
  intros Hne. unfold extract_from_soup.
  destruct (negb _); [|done]. by rewrite lookup_insert_ne.
Qed.

End Finding.

(** X5.  [description] and [robots] are looked up by the [name] attribute
    only: the value is the content, trimmed, of the first meta element with
    that name, and the empty string when the document has none, whatever
    its [property] attributes say.  The record holds that value under the
    key. *)
Theorem name_lookup (soup : list Tag) (url name : string) :
  name ∈ ["description"; "robots"] →
  (∀ t, first_meta_with "name" name soup t →
        is_trim_of (get_meta_by_name soup name) (content_of t))
  ∧ (no_meta_with "name" name soup → get_meta_by_name soup name = "")
  ∧ extract_from_soup soup url !! name = Some (get_meta_by_name soup name).
Proof.
  intros Hname. split; [|split].
  - intros t Ht. unfold get_meta_by_name.
    rewrite (find_attr_first _ _ _ _ Ht), stripped_attr_content.
    apply strip_is_trim.
  - intros Hno. unfold get_meta_by_name. by rewrite (find_attr_none _ _ _ Hno).
  - rewrite extract_from_soup_other; [by apply meta_literal_name|].
    set_unfold in Hname. by destruct_or!; subst name.
Qed.

Lemma name_lookup_witness :
  get_meta_by_name [meta_tag "property" "description" "By property"]
    "description" = "".
Proof.
  destruct (name_lookup [meta_tag "property" "description" "By property"]
              "https://a.com/" "description") as (_ & Hnone & _).
  - set_solver.
  - apply Hnone. constructor; [|constructor].
    intros [_ Hn]. vm_compute in Hn. discriminate.
Defined.

(** X6.  [canonical] is the href, trimmed, of the first link element that
    has [canonical] among the tokens of its [rel] attribute, also when
    [rel] lists other tokens; it is the empty string when the document has
    no such link. *)
Theorem canonical_lookup (soup : list Tag) (url : string) :
  (∀ t, first_such (is_link_with_rel "canonical") soup t →
        is_trim_of (get_link_rel soup "canonical") (href_of t))
  ∧ (Forall (λ x, ¬ is_link_with_rel "canonical" x) soup →
     get_link_rel soup "canonical" = "")
  ∧ extract_from_soup soup url !! "canonical"
    = Some (get_link_rel soup "canonical").
Proof.
  destruct (find_first_such _ _ soup is_link_with_rel_test) as [Hfirst Hnone].
  split; [|split].
  - intros t Ht. unfold get_link_rel, find_rel.
    rewrite (Hfirst t Ht), stripped_attr_strip. apply strip_is_trim.
  - intros Hno. unfold get_link_rel, find_rel. by rewrite (Hnone Hno).
  - rewrite extract_from_soup_other by done. apply meta_literal_canonical.
Qed.

Lemma canonical_lookup_witness :
  let link := {| tag_name := "link";
                 tag_attrs := {["href" := " https://a.com/page "]};
                 tag_rel := ["alternate"; "canonical"];
                 tag_string := None |} in
  is_trim_of (get_link_rel [meta_tag "name" "robots" "all"; link] "canonical")
    (href_of link).
Proof.
  intros link.
  destruct (canonical_lookup [meta_tag "name" "robots" "all"; link] "")
    as (Hfirst & _).
  apply Hfirst. exists [meta_tag "name" "robots" "all"], [].
  split; [reflexivity|]. split.
  - split; [reflexivity|]. set_solver.
  - constructor; [|constructor]. intros [Hn _]. discriminate.
Defined.

(** X7.  [title] is the [.string], trimmed, of the first title element of
    the document; it is the empty string when the document has no title
    element, and also when the first one has no [.string], even if a
    later title element has one. *)
Theorem title_lookup (soup : list Tag) (url : string) :
  (∀ t, first_such is_title soup t →
        is_trim_of (soup_title soup) (string_of t))
  ∧ (Forall (λ x, ¬ is_title x) soup → soup_title soup = "")
  ∧ extract_from_soup soup url !! "title" = Some (soup_title soup).
Proof.
  destruct (find_first_such _ _ soup is_title_test) as [Hfirst Hnone].
  split; [|split].
  - intros t Ht. unfold soup_title, find_tag. rewrite (Hfirst t Ht).
    unfold string_of. destruct (tag_string t) as [[|c s]|]; simpl;
      try apply strip_is_trim; by apply (strip_is_trim "").
  - intros Hno. unfold soup_title, find_tag. by rewrite (Hnone Hno).
  - rewrite extract_from_soup_other by done. apply meta_literal_title.
Qed.

Lemma title_lookup_witness :
  let icon := {| tag_name := "title"; tag_attrs := ∅; tag_rel := [];
                 tag_string := None |} in
  let page := {| tag_name := "title"; tag_attrs := ∅; tag_rel := [];
                 tag_string := Some "Page" |} in
  is_trim_of (soup_title [icon; page]) "".
Proof.
  intros icon page.
  destruct (title_lookup [icon; page] "") as (Hfirst & _).
  apply (Hfirst icon). exists [], [page].
  split; [reflexivity|]. split; [reflexivity | constructor].
Defined.

(** X8.  No value of the record has whitespace at either end, provided the
    URL handed to the extractor has none. *)
Theorem extracted_values_trimmed (soup : list Tag) (url key value : string) :
  is_trimmed url →
  extract_from_soup soup url !! key = Some value →
  is_trimmed value.
Proof.
  intros Hurl. unfold extract_from_soup.
  pose proof (meta_literal_trimmed soup) as Hlit.
  destruct (negb _).
  - intros H. apply (map_Forall_insert_2 _ _ "og:url" _ Hurl Hlit key value H).
  - apply Hlit.
Qed.

Lemma extracted_values_trimmed_witness :
  extract_from_soup [meta_tag "property" "og:title" "  Padded  "]
    "https://a.com/" !! "og:title" = Some "Padded"
  ∧ is_trimmed "Padded".
Proof.
  split; [reflexivity|].
  apply (extracted_values_trimmed
           [meta_tag "property" "og:title" "  Padded  "]
           "https://a.com/" "og:title" "Padded").
  - split; intros c [= <-]; reflexivity.
  - reflexivity.
Defined.

(** X9.  A meta element found by [property] whose content is missing,
    empty or all whitespace gives the empty string: the lookup does not
    go on to the [name] attribute, whatever the document has there. *)
Theorem blank_property_hides_name (soup : list Tag) (key : string) (t : Tag) :
  key ∈ property_keys →
  first_meta_with "property" key soup t →
  all_space (content_of t) →
  get_meta_by_property soup key = "".
Proof.
  intros _ Ht Hblank. rewrite (get_meta_by_property_first _ _ _ Ht).
  by apply strip_all_space.
Qed.

Lemma blank_property_hides_name_witness :
  get_meta_by_property
    [meta_tag "property" "og:image" " "; meta_tag "name" "og:image" "a.png"]
    "og:image" = "".
Proof.
  apply (blank_property_hides_name _ _ (meta_tag "property" "og:image" " ")).
  - unfold property_keys. set_solver.
  - exists [], [meta_tag "name" "og:image" "a.png"].
    split; [reflexivity|]. split; [|constructor]. split; reflexivity.
  - simpl. split; [reflexivity | exact I].
Defined.

(** ** Feedback generator *)

Section Reading.

Implicit Types (meta : gmap string string).

Lemma truthy_opt_get meta key :
  truthy_opt (meta !! key) = Py.truthy (get meta key "").
Proof. unfold get. by destruct (meta !! key). Qed.

Lemma truthy_decide s :
  Py.truthy s = if decide (s = "") then false else true.
Proof. by destruct s. Qed.

(** Each block reads the record only through [get] at its own keys. *)
Lemma check_title_reads meta1 meta2 feedback :
  get meta1 "title" "" = get meta2 "title" "" →
  check_title meta1 feedback = check_title meta2 feedback.
Proof. intros H. unfold check_title. by rewrite H. Qed.

Lemma check_description_reads meta1 meta2 feedback :
  get meta1 "description" "" = get meta2 "description" "" →
  check_description meta1 feedback = check_description meta2 feedback.
Proof. intros H. unfold check_description. by rewrite H. Qed.

Lemma check_robots_reads meta1 meta2 feedback :
  get meta1 "robots" "" = get meta2 "robots" "" →
  check_robots meta1 feedback = check_robots meta2 feedback.
Proof. intros H. unfold check_robots. by rewrite H. Qed.

Lemma check_canonical_reads meta1 meta2 feedback :
  get meta1 "canonical" "" = get meta2 "canonical" "" →
  check_canonical meta1 feedback = check_canonical meta2 feedback.
Proof. intros H. unfold check_canonical. by rewrite !truthy_opt_get, H. Qed.

Lemma check_og_text_reads meta1 meta2 feedback :
  get meta1 "og:title" "" = get meta2 "og:title" "" →
  get meta1 "og:description" "" = get meta2 "og:description" "" →
  check_og_text meta1 feedback = check_og_text meta2 feedback.
Proof.
  intros H1 H2. unfold check_og_text. by rewrite !truthy_opt_get, H1, H2.
Qed.

Lemma check_og_image_reads meta1 meta2 feedback :
  get meta1 "og:image" "" = get meta2 "og:image" "" →
  check_og_image meta1 feedback = check_og_image meta2 feedback.
Proof. intros H. unfold check_og_image. by rewrite !truthy_opt_get, H. Qed.

Lemma check_twitter_reads meta1 meta2 feedback :
  get meta1 "twitter:card" "" = get meta2 "twitter:card" "" →
  check_twitter meta1 feedback = check_twitter meta2 feedback.
Proof.
  intros H. unfold check_twitter. rewrite !truthy_opt_get.
  change (default "" (meta1 !! "twitter:card"))
    with (get meta1 "twitter:card" "").
  change (default "" (meta2 !! "twitter:card"))
    with (get meta2 "twitter:card" "").
  by rewrite H.
Qed.

(** Two records with the same values under the keys the generator reads,
    a missing key counting as the empty string, get the same feedback. *)
Lemma generate_feedback_reads meta1 meta2 :
  Forall (λ key, get meta1 key "" = get meta2 key "") feedback_keys →
  generate_feedback meta1 = generate_feedback meta2.
Proof.
  unfold feedback_keys. intros H.
  repeat (apply Forall_cons in H as [? H]).
  unfold generate_feedback.
  rewrite (check_title_reads meta1 meta2) by done.
  rewrite (check_description_reads meta1 meta2) by done.
  rewrite (check_robots_reads meta1 meta2) by done.
  rewrite (check_canonical_reads meta1 meta2) by done.
  rewrite (check_og_text_reads meta1 meta2) by done.
  rewrite (check_og_image_reads meta1 meta2) by done.
  by rewrite (check_twitter_reads meta1 meta2).
Qed.

Lemma extract_from_soup_get soup url key :
  key ≠ "og:url" →
  get (extract_from_soup soup url) key "" = get (meta_literal soup) key "".
Proof. intros H. unfold get. by rewrite extract_from_soup_other. Qed.

(** The levels each block can emit. *)
Lemma check_title_valid meta :
  Forall (λ item, valid_level (level item)) (check_title meta []).
Proof.
  unfold check_title, add, valid_level.
  repeat case_match; apply Forall_singleton; simpl; auto.
Qed.

Lemma check_description_valid meta :
  Forall (λ item, valid_level (level item)) (check_description meta []).
Proof.
  unfold check_description, add, valid_level.
  repeat case_match; apply Forall_singleton; simpl; auto.
Qed.

Lemma check_robots_mild meta :
  Forall (λ item, level item = "warning" ∨ level item = "ok")
    (check_robots meta []).
Proof.
  unfold check_robots, add.
  repeat case_match; repeat (constructor; [simpl; auto|]); constructor.
Qed.

(** What each of the last four blocks adds. *)
Lemma check_canonical_item meta :
  ∃ item, check_canonical meta [] = [item]
    ∧ level item
      = if decide (get meta "canonical" "" = "") then "warning" else "ok".
Proof.
  unfold check_canonical, add. rewrite truthy_opt_get, truthy_decide.
  case_decide; by eexists.
Qed.

Lemma check_og_text_item meta :
  ∃ item, check_og_text meta [] = [item]
    ∧ level item
      = if decide (get meta "og:title" "" = "" ∨ get meta "og:description" "" = "")
        then "warning" else "ok".
Proof.
  unfold check_og_text, add. rewrite !truthy_opt_get, !truthy_decide.
  repeat case_decide; simpl; eexists; (split; [reflexivity|]); simpl;
    first [done | exfalso; tauto].
Qed.

Lemma check_og_image_item meta :
  ∃ item, check_og_image meta [] = [item]
    ∧ level item
      = if decide (get meta "og:image" "" = "") then "warning" else "ok".
Proof.
  unfold check_og_image, add. rewrite truthy_opt_get, truthy_decide.
  case_decide; by eexists.
Qed.

Lemma check_twitter_item meta :
  ∃ item, check_twitter meta [] = [item]
    ∧ level item
      = if decide (get meta "twitter:card" "" = "") then "warning" else "ok".
Proof.
  unfold check_twitter, add. rewrite truthy_opt_get, truthy_decide.
  case_decide; by eexists.
Qed.

Lemma warning_or_ok (P : Prop) `{Decision P} :
  (if decide P then "warning" else "ok") = "warning"
  ∨ (if decide P then "warning" else "ok") = "ok".
Proof. destruct (decide P); auto. Qed.

Lemma ok_unless (P : Prop) `{Decision P} :
  (if decide P then "warning" else "ok") = "ok" ↔ ¬ P.
Proof. by destruct (decide P). Qed.

(** When each of the first three blocks adds only [ok] items. *)
Lemma check_title_ok meta :
  Forall (λ item, level item = "ok") (check_title meta [])
  ↔ 30 ≤ String.length (get meta "title" "") ≤ 65.
Proof.
  unfold check_title, add. destruct (get meta "title" "") as [|c s] eqn:E.
  - simpl. rewrite Forall_singleton. simpl. split; [done | lia].
  - cbn [Py.truthy negb].
    destruct (_ <? 30) eqn:H30; [|destruct (65 <? _) eqn:H65];
      rewrite app_nil_l, Forall_singleton; cbn [level];
      (apply Nat.ltb_lt in H30 || apply Nat.ltb_ge in H30);
      try (apply Nat.ltb_lt in H65 || apply Nat.ltb_ge in H65);
      split; try done; lia.
Qed.

Lemma check_description_ok meta :
  Forall (λ item, level item = "ok") (check_description meta [])
  ↔ 50 ≤ String.length (get meta "description" "") ≤ 170.
Proof.
  unfold check_description, add.
  destruct (get meta "description" "") as [|c s] eqn:E.
  - simpl. rewrite Forall_singleton. simpl. split; [done | lia].
  - cbn [Py.truthy negb].
    destruct (_ <? 50) eqn:H50; [|destruct (170 <? _) eqn:H170];
      rewrite app_nil_l, Forall_singleton; cbn [level];
      (apply Nat.ltb_lt in H50 || apply Nat.ltb_ge in H50);
      try (apply Nat.ltb_lt in H170 || apply Nat.ltb_ge in H170);
      split; try done; lia.
Qed.

Lemma check_robots_ok meta :
  Forall (λ item, level item = "ok") (check_robots meta [])
  ↔ ¬ contains_ci "noindex" (get meta "robots" "")
    ∧ ¬ contains_ci "nofollow" (get meta "robots" "").
Proof.
  pose proof (check_robots_cases meta) as Hc. simpl in Hc. rewrite Hc.
  rewrite <- !contains_lower_not_ci by done.
  destruct (Py.truthy (get meta "robots" "")) eqn:Ht.
  - destruct (Py.contains "noindex" _), (Py.contains "nofollow" _); simpl;
      split; try done; intros H; try (by destruct H);
      by apply Forall_cons in H as [? _].
  - apply truthy_false in Ht. rewrite Ht. simpl.
    rewrite Forall_singleton. done.
Qed.

Lemma check_title_error meta :
  get meta "title" "" = "" →
  ∃ item, check_title meta [] = [item] ∧ level item = "error".
Proof. intros H. unfold check_title, add. rewrite H. by eexists. Qed.

Lemma check_description_error meta :
  get meta "description" "" = "" →
  ∃ item, check_description meta [] = [item] ∧ level item = "error".
Proof. intros H. unfold check_description, add. rewrite H. by eexists. Qed.

End Reading.

(** X10.  Every feedback item has one of the three levels [error],
    [warning], [ok], and only the first two items, those of the title and
    the description, can be an [error]. *)
Theorem feedback_levels (meta : gmap string string) :
  ∃ t d rest,
    generate_feedback meta = t :: d :: rest
    ∧ valid_level (level t)
    ∧ valid_level (level d)
    ∧ Forall (λ item, level item = "warning" ∨ level item = "ok") rest.
Proof.
  rewrite generate_feedback_blocks.
  pose proof (check_title_valid meta) as Ht.
  pose proof (check_title_one meta) as Ht1.
  pose proof (check_description_valid meta) as Hd.
  pose proof (check_description_one meta) as Hd1.
  destruct (check_title meta []) as [|t [|??]]; simplify_eq/=.
  destruct (check_description meta []) as [|d [|??]]; simplify_eq/=.
  rewrite Forall_singleton in Ht, Hd.
  eexists _, _, _. split; [reflexivity|]. split; [done|]. split; [done|].
  destruct (check_canonical_item meta) as (c & -> & Hc).
  destruct (check_og_text_item meta) as (o & -> & Ho).
  destruct (check_og_image_item meta) as (i & -> & Hi).
  destruct (check_twitter_item meta) as (w & -> & Hw).
  apply Forall_app. split; [apply check_robots_mild|].
  apply Forall_cons_2; [simpl; rewrite Hc; apply warning_or_ok|].
  apply Forall_cons_2; [simpl; rewrite Ho; apply warning_or_ok|].
  apply Forall_cons_2; [simpl; rewrite Hi; apply warning_or_ok|].
  apply Forall_cons_2; [simpl; rewrite Hw; apply warning_or_ok|].
  apply Forall_nil_2.
Qed.

(** X11.  The feedback is a function of the values under eight keys only
    ([title], [description], [robots], [canonical], [og:title],
    [og:description], [og:image], [twitter:card]), and a missing key counts
    as the empty string: [og:url], [og:type], [twitter:title],
    [twitter:description], [twitter:image] and any other key never change
    it. *)
Theorem feedback_reads_eight_keys (meta1 meta2 : gmap string string) :
  Forall (λ key, get meta1 key "" = get meta2 key "") feedback_keys →
  generate_feedback meta1 = generate_feedback meta2.
Proof. apply generate_feedback_reads. Qed.

Lemma feedback_reads_eight_keys_witness :
  generate_feedback {["twitter:card" := "summary"]}
  = generate_feedback
      (<["og:type" := "website"]>
         (<["title" := ""]> {["twitter:card" := "summary"]})).
Proof.
  apply feedback_reads_eight_keys.
  unfold feedback_keys. repeat constructor.
Defined.

(** X12.  The feedback holds nothing but [ok] items exactly when the title
    has 30 to 65 characters, the description has 50 to 170, the robots
    value contains neither [noindex] nor [nofollow] (letter case ignored),
    and the canonical link, the Open Graph title, description and image
    and the Twitter card are all present. *)
Theorem feedback_all_ok (meta : gmap string string) :
  Forall (λ item, level item = "ok") (generate_feedback meta)
  ↔ 30 ≤ String.length (get meta "title" "") ≤ 65
    ∧ 50 ≤ String.length (get meta "description" "") ≤ 170
    ∧ ¬ contains_ci "noindex" (get meta "robots" "")
    ∧ ¬ contains_ci "nofollow" (get meta "robots" "")
    ∧ get meta "canonical" "" ≠ ""
    ∧ get meta "og:title" "" ≠ ""
    ∧ get meta "og:description" "" ≠ ""
    ∧ get meta "og:image" "" ≠ ""
    ∧ get meta "twitter:card" "" ≠ "".
Proof.
  rewrite generate_feedback_blocks, !Forall_app.
  rewrite check_title_ok, check_description_ok, check_robots_ok.
  destruct (check_canonical_item meta) as (c & -> & Hc).
  destruct (check_og_text_item meta) as (o & -> & Ho).
  destruct (check_og_image_item meta) as (i & -> & Hi).
  destruct (check_twitter_item meta) as (w & -> & Hw).
  rewrite !Forall_singleton, Hc, Ho, Hi, Hw, !ok_unless. tauto.
Qed.

Lemma feedback_all_ok_witness :
  Forall (λ item, level item = "ok")
    (generate_feedback
       (<["title" := "A title of exactly thirty char"]>
       (<["description" :=
            "A description that is exactly fifty characters ok."]>
       (<["robots" := "index, follow"]>
       (<["canonical" := "https://a.com/"]>
       (<["og:title" := "T"]>
       (<["og:description" := "D"]>
       (<["og:image" := "i.png"]>
       {["twitter:card" := "summary"]})))))))).
Proof.
  apply feedback_all_ok.
  split; [vm_compute; lia|]. split; [vm_compute; lia|].
  split; [apply contains_lower_not_ci; by vm_compute|].
  split; [apply contains_lower_not_ci; by vm_compute|].
  repeat split; vm_compute; discriminate.
Defined.

(** X13.  The feedback ends with four items, one each for the canonical
    link, the Open Graph title and description, the Open Graph image and
    the Twitter card, in that order: [warning] when the value is empty or
    missing (for the second, when either of the two is), [ok] otherwise.
    At most four items precede them. *)
Theorem presence_checks (meta : gmap string string) :
  ∃ front c o i w,
    generate_feedback meta = front ++ [c; o; i; w]
    ∧ length front ≤ 4
    ∧ level c
      = (if decide (get meta "canonical" "" = "") then "warning" else "ok")
    ∧ level o
      = (if decide (get meta "og:title" "" = ""
                    ∨ get meta "og:description" "" = "")
         then "warning" else "ok")
    ∧ level i
      = (if decide (get meta "og:image" "" = "") then "warning" else "ok")
    ∧ level w
      = (if decide (get meta "twitter:card" "" = "") then "warning" else "ok").
Proof.
  rewrite generate_feedback_blocks.
  destruct (check_canonical_item meta) as (c & -> & Hc).
  destruct (check_og_text_item meta) as (o & -> & Ho).
  destruct (check_og_image_item meta) as (i & -> & Hi).
  destruct (check_twitter_item meta) as (w & -> & Hw).
  exists (check_title meta [] ++ check_description meta []
          ++ check_robots meta []), c, o, i, w.
  split.
  { by rewrite (app_assoc (check_description meta [])),
      (app_assoc (check_title meta [])). }
  split; [|done].
  rewrite !length_app, check_title_one, check_description_one.
  pose proof (check_robots_at_most_two meta). lia.
Qed.

(** X14.  The feedback for an extracted record does not depend on the URL
    the page was requested by. *)
Theorem feedback_ignores_request_url (soup : list Tag) (url1 url2 : string) :
  generate_feedback (extract_from_soup soup url1)
  = generate_feedback (extract_from_soup soup url2).
Proof.
  apply generate_feedback_reads. unfold feedback_keys.
  repeat (constructor; [by rewrite !extract_from_soup_get|]). constructor.
Qed.

(** X15.  Extraction and feedback together: a page without a title
    element gets an [error] as its first feedback item, and a page without
    a meta element named [description] gets an [error] as its second. *)
Theorem missing_tags_are_errors (soup : list Tag) (url : string) :
  (Forall (λ x, ¬ is_title x) soup →
   ∃ item, generate_feedback (extract_from_soup soup url) !! 0 = Some item
           ∧ level item = "error")
  ∧ (no_meta_with "name" "description" soup →
     ∃ item, generate_feedback (extract_from_soup soup url) !! 1 = Some item
             ∧ level item = "error").
Proof.
  destruct (find_first_such _ _ soup is_title_test) as [_ Hnone].
  assert (Htitle : get (extract_from_soup soup url) "title" ""
                   = soup_title soup).
  { rewrite extract_from_soup_get by done. unfold get.
    by rewrite meta_literal_title. }
  assert (Hdesc : get (extract_from_soup soup url) "description" ""
                  = get_meta_by_name soup "description").
  { rewrite extract_from_soup_get by done. unfold get.
    by rewrite meta_literal_name by set_solver. }
  revert Htitle Hdesc. generalize (extract_from_soup soup url).
  intros meta Htitle Hdesc. rewrite generate_feedback_blocks.
  pose proof (check_title_one meta) as Ht1.
  split.
  - intros Hno. destruct (check_title_error meta) as (t & -> & Ht).
    + rewrite Htitle. unfold soup_title, find_tag. by rewrite (Hnone Hno).
    + by exists t.
  - intros Hno. destruct (check_description_error meta) as (d & -> & Hd).
    + rewrite Hdesc. unfold get_meta_by_name.
      by rewrite (find_attr_none _ _ _ Hno).
    + destruct (check_title meta []) as [|t [|??]]; simplify_eq/=.
      by exists d.
Qed.

Lemma missing_tags_are_errors_witness :
  ∃ item,
    generate_feedback
      (extract_from_soup [meta_tag "property" "description" "By property"]
         "https://a.com/") !! 1 = Some item
    ∧ level item = "error".
Proof.
  destruct (missing_tags_are_errors
              [meta_tag "property" "description" "By property"]
              "https://a.com/") as (_ & Hdesc).
  apply Hdesc. constructor; [|constructor].
  intros [_ Hn]. vm_compute in Hn. discriminate.
Defined.

(** ** The [/analyze] endpoint *)

Section Handler.

Variable BeautifulSoup : string → list Tag.
Variable requests_get : string → FetchResult.
Variable urlparse : string → ParseResult.

Lemma strip_strip s : Py.strip (Py.strip s) = Py.strip s.
Proof. destruct (strip_trimmed s). by apply strip_fixed. Qed.

(** The handler strips the field and the normaliser strips again; the
    second pass changes nothing. *)
Lemma normalize_url_strip s : normalize_url (Py.strip s) = normalize_url s.
Proof. unfold normalize_url. by rewrite strip_strip. Qed.

Lemma or_empty s : (if Py.truthy s then s else "") = s.
Proof. by destruct s. Qed.

(** The answer to a URL that is a string and not blank. *)
Lemma analyze_string fields s log :
  fields !! "url" = Some (JStr s) → ¬ all_space s →
  analyze BeautifulSoup requests_get urlparse (JObject fields) log
  = (log ++ [normalize_url s],
     match requests_get (normalize_url s) with
     | FetchOk text =>
         let url := normalize_url s in
         let meta := extract_meta_tags BeautifulSoup text url in
         inr {| payload :=
                  ResultPayload url
                    (scheme (urlparse url) +:+ "://" +:+ netloc (urlparse url)
                     +:+ path (urlparse url))
                    meta (generate_feedback meta);
                status := 200 |}
     | FetchFail cause =>
         inr {| payload := ErrorPayload ("Error fetching URL: " +:+ cause);
                status := 400 |}
     end).
Proof.
  intros Hf Hs. unfold analyze, bind, url_field, ret. rewrite Hf. simpl.
  assert (Ht : Py.truthy (Py.strip s) = true).
  { apply truthy_true. by rewrite strip_all_space. }
  rewrite Ht. simpl. rewrite normalize_url_strip.
  unfold try_except, http_get, bind, ret.
  destruct (requests_get _); [|done]. by rewrite or_empty.
Qed.

(** The answer to a missing or blank URL. *)
Lemma analyze_blank fields log :
  fields !! "url" = None
  ∨ (∃ s, fields !! "url" = Some (JStr s) ∧ all_space s) →
  analyze BeautifulSoup requests_get urlparse (JObject fields) log
  = (log, inr {| payload := ErrorPayload "No URL provided."; status := 400 |}).
Proof.
  unfold analyze, bind, url_field, ret.
  intros [-> | (s & -> & Hs%strip_all_space)]; simpl; [done|].
  by rewrite Hs.
Qed.

(** The answer to a body without [get] or a URL without [strip]. *)
Lemma analyze_ill_typed data log :
  data = JNotObject ∨ (∃ fields, data = JObject fields
                                 ∧ fields !! "url" = Some JOther) →
  analyze BeautifulSoup requests_get urlparse data log
  = (log, inl AttributeError).
Proof.
  unfold analyze, bind, url_field, raise.
  intros [-> | (fields & -> & Hf)]; [done|]. by rewrite Hf.
Qed.

(** Every body falls under one of the three cases. *)
Lemma body_cases data :
  (data = JNotObject ∨ (∃ fields, data = JObject fields
                                  ∧ fields !! "url" = Some JOther))
  ∨ (∃ fields, data = JObject fields
       ∧ (fields !! "url" = None
          ∨ (∃ s, fields !! "url" = Some (JStr s) ∧ all_space s)))
  ∨ (∃ fields s, data = JObject fields
       ∧ fields !! "url" = Some (JStr s) ∧ ¬ all_space s).
Proof.
  destruct data as [fields|]; [|by left; left].
  destruct (fields !! "url") as [[s|]|] eqn:E.
  - destruct (Py.strip s) eqn:Hs.
    + right; left. exists fields. split; [done|]. right. exists s.
      by rewrite <- strip_all_space.
    + right; right. exists fields, s. repeat split; try done.
      rewrite <- strip_all_space. congruence.
  - left; right. by exists fields.
  - right; left. exists fields. by split; [|left].
Qed.

End Handler.

Section RecordUrl.


End RecordUrl.





(** X18.  On every request body the handler calls the HTTP client at most
    once, and only on a URL that begins with ["http://"] or ["https://"]
    and has no whitespace at either end. *)
Theorem analyze_fetches_at_most_once (BeautifulSoup : string → list Tag)
    (requests_get : string → FetchResult) (urlparse : string → ParseResult)
    (data : JsonBody) (log : list string) :
  ∃ fetched,
    (analyze BeautifulSoup requests_get urlparse data log).1 = log ++ fetched
    ∧ length fetched ≤ 1
    ∧ Forall (λ url, has_scheme url ∧ is_trimmed url) fetched.
Proof.
  destruct (body_cases data)
    as [Hbad | [(fields & -> & Hblank) | (fields & s & -> & Hf & Hs)]].
  - exists []. rewrite (analyze_ill_typed _ _ _ _ _ Hbad). simpl.
    rewrite app_nil_r. split; [done|]. split; [lia | constructor].
  - exists []. rewrite (analyze_blank _ _ _ _ _ Hblank). simpl.
    rewrite app_nil_r. split; [done|]. split; [lia | constructor].
  - exists [normalize_url s].
    rewrite (analyze_string _ _ _ _ _ _ Hf Hs). simpl.
    split; [done|]. split; [done|]. apply Forall_singleton.
    split; [apply normalize_url_has_scheme | apply normalize_url_trimmed].
Qed.


